(** * Portfolio_Dashboard: the returns and metrics pipeline

    A shallow embedding of [Dashboard.py] and [pages/1_Stock_Deep_Dive.py].

    Conventions of the embedding:
    - a pandas frame is the list of its rows, in positional ([iloc]) order;
    - a Python value that may be [None] is an [option];
    - a Python exception is the [Raise] branch of [res];
    - a float64 is a [num]: an exact rational, or one of the IEEE special
      values.  Binary rounding error and the sign of zero are outside the
      model: the theorems state the formulas as the code evaluates them, on
      exact decimals.  The closes of a price history and the fields of a
      financial statement are finite numbers; a JSON null, which pandas
      reads as NaN, is outside the model. *)

From Stdlib Require Import ZArith QArith Qcanon List Ascii String Bool Lia Permutation.
Import ListNotations.


(** ** Python results *)

Module Py.

Inductive exn := IndexError | KeyError | OverflowError | TypeError.

Inductive res (A : Type) : Type :=
| Ok (a : A)
| Raise (e : exn).
Arguments Ok {A} a.
Arguments Raise {A} e.

Definition bind {A B} (m : res A) (k : A -> res B) : res B :=
  match m with
  | Ok a => k a
  | Raise e => Raise e
  end.

End Py.
Import Py.

Declare Scope py_scope.
Delimit Scope py_scope with py.
Notation "x <- m ;; k" := (Py.bind m (fun x => k))
  (at level 61, m at next level, right associativity) : py_scope.
Notation "' p <- m ;; k" := (Py.bind m (fun p => k))
  (at level 61, p pattern, m at next level, right associativity) : py_scope.
Open Scope py_scope.

(** ** float64 values *)

Module Float.

Local Open Scope Qc_scope.

(** A finite value, a signed infinity, or not-a-number. *)
Inductive num :=
| Fin (q : Qc)
| Inf (negative : bool)
| NaN.

Definition of_Z (z : Z) : Qc := Q2Qc (inject_Z z).

Definition is_zero (q : Qc) : bool := (Qnum q =? 0)%Z.
Definition is_neg (q : Qc) : bool := (Qnum q <? 0)%Z.

Definition add (x y : num) : num :=
  match x, y with
  | NaN, _ | _, NaN => NaN
  | Fin a, Fin b => Fin (a + b)
  | Fin _, Inf s | Inf s, Fin _ => Inf s
  | Inf s, Inf t => if Bool.eqb s t then Inf s else NaN
  end.

Definition neg (x : num) : num :=
  match x with
  | Fin a => Fin (- a)
  | Inf s => Inf (negb s)
  | NaN => NaN
  end.

Definition sub (x y : num) : num := add x (neg y).

Definition mul (x y : num) : num :=
  match x, y with
  | NaN, _ | _, NaN => NaN
  | Fin a, Fin b => Fin (a * b)
  | Fin a, Inf s | Inf s, Fin a =>
      if is_zero a then NaN else Inf (xorb s (is_neg a))
  | Inf s, Inf t => Inf (xorb s t)
  end.

(** numpy true division: a zero divisor gives an infinity or NaN (with a
    warning), never an exception. *)
Definition div (x y : num) : num :=
  match x, y with
  | NaN, _ | _, NaN => NaN
  | Fin a, Fin b =>
      if is_zero b then (if is_zero a then NaN else Inf (is_neg a))
      else Fin (a / b)
  | Fin _, Inf _ => Fin 0
  | Inf s, Fin b => Inf (xorb s (is_neg b))
  | Inf _, Inf _ => NaN
  end.

(** [bool(x)]: only zero is falsy. *)
Definition truthy (x : num) : bool :=
  match x with
  | Fin a => negb (is_zero a)
  | _ => true
  end.

Definition is_nan (x : num) : bool :=
  match x with NaN => true | _ => false end.

Definition is_finite (x : num) : bool :=
  match x with Fin _ => true | _ => false end.

(** [np.rint]: nearest integer, ties to even. *)
Definition rint (q : Qc) : Z :=
  let n := Qnum q in
  let d := Zpos (Qden q) in
  let f := (n / d)%Z in
  match (2 * (n mod d) ?= d)%Z with
  | Lt => f
  | Gt => (f + 1)%Z
  | Eq => if Z.even f then f else (f + 1)%Z
  end.

(** [round(2)] on a float column: [rint(x * 100) / 100]. *)
Definition round2 (x : num) : num :=
  match x with
  | Fin q => Fin (of_Z (rint (q * of_Z 100)) / of_Z 100)
  | _ => x
  end.

(** [Series.sum()] and [np.sum] of a Series: NaN entries are skipped. *)
Definition sum (l : list num) : num :=
  fold_left add (filter (fun x => negb (is_nan x)) l) (Fin 0).

(** [Series.mean()]: the sum over the count of the non-NaN entries. *)
Definition mean (l : list num) : num :=
  let l' := filter (fun x => negb (is_nan x)) l in
  div (fold_left add l' (Fin 0)) (Fin (of_Z (Z.of_nat (List.length l')))).

End Float.
Import Float.
Coercion Fin : Qc >-> num.

(** ** Dates *)

Module Calendar.

Local Open Scope Z_scope.

(** A [datetime] at midnight; only the calendar fields matter here. *)
Record datetime := mk_datetime { year : Z; month : Z; day : Z }.

Definition MINYEAR : Z := 1.

Definition is_leap (y : Z) : bool :=
  (y mod 4 =? 0) && (negb (y mod 100 =? 0) || (y mod 400 =? 0)).

Definition days_in_month (y m : Z) : Z :=
  if m =? 2 then (if is_leap y then 29 else 28)
  else if (m =? 4) || (m =? 6) || (m =? 9) || (m =? 11) then 30
  else 31.

Definition days_before_year (y : Z) : Z :=
  let y' := y - 1 in y' * 365 + y' / 4 - y' / 100 + y' / 400.

Fixpoint days_before_month_aux (y : Z) (n : nat) : Z :=
  match n with
  | O => 0
  | S k => days_before_month_aux y k + days_in_month y (Z.of_nat (S k))
  end.

(** Days of year [y] before the first of month [m]. *)
Definition days_before_month (y m : Z) : Z :=
  days_before_month_aux y (Z.to_nat (m - 1)).

(** [date.toordinal()]: 0001-01-01 is day 1. *)
Definition toordinal (d : datetime) : Z :=
  days_before_year (year d) + days_before_month (year d) (month d) + day d.

(** [d - timedelta(days=1)]. *)
Definition minus_one_day (d : datetime) : res datetime :=
  if 1 <? day d then Ok (mk_datetime (year d) (month d) (day d - 1))
  else if 1 <? month d then
    Ok (mk_datetime (year d) (month d - 1) (days_in_month (year d) (month d - 1)))
  else if MINYEAR <? year d then Ok (mk_datetime (year d - 1) 12 31)
  else Raise OverflowError.

(** Comparison of two timestamps: field by field. *)
Definition date_leb (a b : datetime) : bool :=
  (year a <? year b)
  || ((year a =? year b)
      && ((month a <? month b)
          || ((month a =? month b) && (day a <=? day b)))).

Definition date_le (a b : datetime) : Prop :=
  year a < year b
  \/ (year a = year b
      /\ (month a < month b \/ (month a = month b /\ day a <= day b))).

Definition date_lt (a b : datetime) : Prop := ~ date_le b a.

(** What [datetime.today()] can return. *)
Definition valid_date (d : datetime) : Prop :=
  MINYEAR <= year d <= 9999 /\ 1 <= month d <= 12
  /\ 1 <= day d <= days_in_month (year d) (month d).

End Calendar.
Import Calendar.

(** ** Frames *)

Module Frame.

(** One row of the [historical] price frame. *)
Record PricePoint := mk_point { date : datetime; close : Qc }.

(** [df.empty] *)
Definition empty {A} (l : list A) : bool :=
  match l with [] => true | _ => false end.

(** [df.iloc[-k]] for [k >= 1]: out of range raises IndexError. *)
Definition iloc_neg {A} (l : list A) (k : nat) : res A :=
  match nth_error (rev l) (k - 1) with
  | Some a => Ok a
  | None => Raise IndexError
  end.

(** [df.iloc[0]] *)
Definition iloc0 {A} (l : list A) : res A :=
  match l with
  | a :: _ => Ok a
  | [] => Raise IndexError
  end.

(** [s.iloc[-4:]]: the last four entries, or all of them when fewer. *)
Definition iloc_last4 {A} (l : list A) : list A :=
  skipn (List.length l - 4) l.

(** [df.iloc[::-1]] *)
Definition flip {A} (l : list A) : list A := rev l.

Fixpoint insert_by_date (p : PricePoint) (l : list PricePoint) : list PricePoint :=
  match l with
  | [] => [p]
  | q :: l' =>
      if date_leb (date p) (date q) then p :: q :: l'
      else q :: insert_by_date p l'
  end.

(** [df.sort_values("date")].  Rows with equal dates keep their order here;
    pandas leaves that order open, and dates of one ticker are unique. *)
Fixpoint sort_values (l : list PricePoint) : list PricePoint :=
  match l with
  | [] => []
  | p :: l' => insert_by_date p (sort_values l')
  end.

(** [df[df["date"] <= d]] and [df[df["date"] >= d]] *)
Definition on_or_before (d : datetime) (l : list PricePoint) : list PricePoint :=
  filter (fun p => date_leb (date p) d) l.
Definition on_or_after (d : datetime) (l : list PricePoint) : list PricePoint :=
  filter (fun p => date_leb d (date p)) l.

(** A price history as the data model has it: dates strictly ascending. *)
Fixpoint ascending (l : list PricePoint) : bool :=
  match l with
  | p :: ((q :: _) as l') => negb (date_leb (date q) (date p)) && ascending l'
  | _ => true
  end.

End Frame.
Import Frame.

(** ** Dashboard.py *)

Module Dashboard.

Local Open Scope Z_scope.

(** One row of the portfolio file. *)
Record Holding := mk_holding { Tickers : string; Weights : Qc }.

(** The prefix of a ticker before its first underscore:
    [str.split("_").str[0]]. *)
Fixpoint before_underscore (s : string) : string :=
  match s with
  | EmptyString => EmptyString
  | String c s' =>
      if Ascii.eqb c "_"%char then EmptyString
      else String c (before_underscore s')
  end.

Definition load_portfolio_from_file (file : list Holding) : list Holding :=
  map (fun h => mk_holding (before_underscore (Tickers h))
                           (Weights h * of_Z 100)%Qc) file.

(** The tuples appended to [performance_data]. *)
Record PerfTuple := mk_tuple {
  t_ticker : string;
  t_weight : num;
  t_current_price : num;
  t_yesterday_price : num;
  t_previous_quarter_price : num;
  t_quarterly_return : num;
  t_day_gain : num
}.

(** A row of [performance_df]; the fields are its columns. *)
Record Row := mk_row {
  Ticker : string;
  Weight : num;
  Current_Price : num;
  Yesterdays_Close : num;
  Previous_Quarter_Price : num;
  Quarterly_Return : num;
  Day_Gain : num;
  Performance_Contribution : num
}.

(** [(today.month - 1) // 3 * 3 + 1] *)
Definition current_quarter_start (today : datetime) : Z :=
  (month today - 1) / 3 * 3 + 1.

(** [datetime(today.year, current_quarter_start, 1) - timedelta(days=1)] *)
Definition previous_quarter_end (today : datetime) : res datetime :=
  minus_one_day (mk_datetime (year today) (current_quarter_start today) 1).

(** [(a - b) / b * 100], the shape of every return of this file. *)
Definition pct_change (a b : num) : num :=
  mul (div (sub a b) b) (Fin (of_Z 100)).

(** [np.sum(df["Weight (%)"] * df[col]) / 100] for both return columns. *)
Definition calculate_portfolio_performance (df : list Row) : num * num :=
  let portfolio_qtd_return :=
    div (sum (map (fun r => mul (Weight r) (Quarterly_Return r)) df))
        (Fin (of_Z 100)) in
  let portfolio_daily_return :=
    div (sum (map (fun r => mul (Weight r) (Day_Gain r)) df))
        (Fin (of_Z 100)) in
  (portfolio_qtd_return, portfolio_daily_return).

(** The new column [Weight (%) * Quarterly Return (%) / 100]. *)
Definition with_contribution (t : PerfTuple) : Row :=
  mk_row (t_ticker t) (t_weight t) (t_current_price t) (t_yesterday_price t)
         (t_previous_quarter_price t) (t_quarterly_return t) (t_day_gain t)
         (div (mul (t_weight t) (t_quarterly_return t)) (Fin (of_Z 100))).

(** [performance_df.round(2)]: every numeric column, the ticker untouched. *)
Definition round_row (r : Row) : Row :=
  mk_row (Ticker r) (round2 (Weight r)) (round2 (Current_Price r))
         (round2 (Yesterdays_Close r)) (round2 (Previous_Quarter_Price r))
         (round2 (Quarterly_Return r)) (round2 (Day_Gain r))
         (round2 (Performance_Contribution r)).

(** [a - b] where [b] may be [None]. *)
Definition sub_opt (a : num) (b : option num) : res num :=
  match b with
  | Some b' => Ok (sub a b')
  | None => Raise TypeError
  end.

(** The figures the page shows. *)
Record Report := mk_report {
  performance_df : list Row;
  spy_returns : option num * option num;
  portfolio_returns : num * num;
  deltas : num * num
}.

Section Run.

(** The clock, and the upstream API: for a ticker, the [historical]
    entry of the response, [None] when the key is absent. *)
Variable today : datetime.
Variable api : string -> option (list PricePoint).

Definition get_stock_price (ticker : string)
  : res (option Qc * option Qc * option Qc) :=
  match api ticker with
  | Some historical =>
      (* a frame built from no records has no "date" column *)
      if empty historical then Raise KeyError else
      let prices := sort_values historical in
      current <- iloc_neg prices 1 ;;
      yesterday <- iloc_neg prices 2 ;;
      boundary <- previous_quarter_end today ;;
      let previous_quarter_prices := on_or_before boundary prices in
      previous_quarter_close <-
        (if negb (empty previous_quarter_prices)
         then p <- iloc_neg previous_quarter_prices 1 ;; Ok (Some (close p))
         else Ok None) ;;
      Ok (Some (close current), Some (close yesterday), previous_quarter_close)
  | None => Ok (None, None, None)
  end.

Definition get_sp500_performance : res (option num * option num) :=
  '(spy_current, spy_yesterday, spy_previous_quarter) <- get_stock_price "SPY"%string ;;
  match spy_current, spy_previous_quarter with
  | Some c, Some q =>
      if truthy c && truthy q then
        let spy_qtd_return := pct_change c q in
        match spy_yesterday with
        | Some y => Ok (Some spy_qtd_return, Some (pct_change c y))
        | None => Raise TypeError
        end
      else Ok (None, None)
  | _, _ => Ok (None, None)
  end.

(** The body of the loop over the portfolio rows: the tuple it appends,
    if any. *)
Definition performance_tuple (row : Holding)
  : res (option PerfTuple) :=
  '(current_price, yesterday_price, previous_quarter_price)
     <- get_stock_price (Tickers row) ;;
  match current_price, yesterday_price, previous_quarter_price with
  | Some c, Some y, Some q =>
      if truthy c && truthy y && truthy q then
        Ok (Some (mk_tuple (Tickers row) (Weights row) c y q
                           (pct_change c q) (pct_change c y)))
      else Ok None
  | _, _, _ => Ok None
  end.

Fixpoint performance_data (portfolio : list Holding) : res (list PerfTuple) :=
  match portfolio with
  | [] => Ok []
  | row :: rest =>
      t <- performance_tuple row ;;
      data <- performance_data rest ;;
      Ok (match t with Some t' => t' :: data | None => data end)
  end.

(** The script below [if file_to_load:], up to the summary table. *)
Definition main (portfolio : list Holding) : res Report :=
  data <- performance_data portfolio ;;
  let df := map round_row (map with_contribution data) in
  '(spy_qtd_return, spy_daily_return) <- get_sp500_performance ;;
  let '(portfolio_qtd_return, portfolio_daily_return) :=
    calculate_portfolio_performance df in
  qtd_delta <- sub_opt portfolio_qtd_return spy_qtd_return ;;
  daily_delta <- sub_opt portfolio_daily_return spy_daily_return ;;
  Ok (mk_report df (spy_qtd_return, spy_daily_return)
                (portfolio_qtd_return, portfolio_daily_return)
                (qtd_delta, daily_delta)).

End Run.

End Dashboard.

(** ** pages/1_Stock_Deep_Dive.py *)

Module StockDeepDive.

Import Dashboard.
Local Open Scope Z_scope.

(** [get_historical_prices]: the sorted frame, or [None] without the
    [historical] key. *)
Definition get_historical_prices (data : option (list PricePoint))
  : res (option (list PricePoint)) :=
  match data with
  | Some historical =>
      if empty historical then Raise KeyError
      else Ok (Some (sort_values historical))
  | None => Ok None
  end.

(** [datetime(today.year, (today.month - 1) // 3 * 3 + 1, 1) - timedelta(days=1)] *)
Definition qtd_start_date (today : datetime) : res datetime :=
  minus_one_day (mk_datetime (year today) ((month today - 1) / 3 * 3 + 1) 1).

Definition calculate_returns (today : datetime) (prices : option (list PricePoint))
  : res (option num * option num) :=
  match prices with
  | Some prices =>
      if negb (empty prices) then
        current_price <- iloc_neg prices 1 ;;
        yesterday_price <- iloc_neg prices 2 ;;
        start <- qtd_start_date today ;;
        let qtd_prices := on_or_after start prices in
        qtd_start_price <-
          (if negb (empty qtd_prices)
           then p <- iloc0 qtd_prices ;; Ok (Some (close p))
           else Ok None) ;;
        let day_return :=
          if truthy (close yesterday_price)
          then Some (pct_change (close current_price) (close yesterday_price))
          else None in
        let qtd_return :=
          match qtd_start_price with
          | Some s =>
              if truthy s then Some (pct_change (close current_price) s)
              else None
          | None => None
          end in
        Ok (day_return, qtd_return)
      else Ok (None, None)
  | None => Ok (None, None)
  end.

(** [(prices / prices.iloc[0] - 1) * 100] on a close column. *)
Definition rebase_prices (prices : list num) : res (list num) :=
  first <- iloc0 prices ;;
  Ok (map (fun p => mul (sub (div p first) (Fin 1)) (Fin (of_Z 100))) prices).

(** The chart windows whose start is a calendar day (the 1Y window starts
    at a time of day and is not embedded). *)
Inductive chart_view := QTD | YTD.

(** [start_date] of the chart filter. *)
Definition start_date (view : chart_view) (today : datetime) : res datetime :=
  match view with
  | QTD => minus_one_day (mk_datetime (year today) ((month today - 1) / 3 * 3 + 1) 1)
  | YTD => minus_one_day (mk_datetime (year today) 1 1)
  end.

(** A row of the quarterly income statement, and of the cash-flow
    statement, with the columns the page reads. *)
Record IncomeRow := mk_income {
  revenue : Qc;
  grossProfit : Qc;
  netIncome : Qc;
  weightedAverageShsOut : Qc;
  eps : Qc
}.
Record CashflowRow := mk_cashflow { freeCashFlow : Qc }.

(** [get_financial_statements]: a frame only for status 200 and a
    non-empty payload. *)
Definition get_financial_statements {A} (status_code : Z) (data : list A)
  : option (list A) :=
  if (status_code =? 200) && negb (empty data) then Some data else None.

(** One column of the metrics table, top to bottom. *)
Record Column := mk_column {
  Revenue : option num;
  Gross_Profit : option num;
  Net_Income : option num;
  Gross_Margin : option num;
  Net_Income_Margin : option num;
  Free_Cash_Flow : option num;
  FCF_per_Share : option num;
  EPS : option num;
  YoY_Revenue_Growth : option num;
  YoY_EPS_Growth : option num;
  YoY_FCF_Growth : option num
}.

Record Metrics := mk_metrics { Current_Quarter : Column; TTM : Column }.

(** [a / b if c else None] *)
Definition ratio_if (guard : num) (a b : num) : option num :=
  if truthy guard then Some (div a b) else None.

(** [cur / col.iloc[-5] - 1 if len(col) > 4 and col.iloc[-5] else None] *)
Definition yoy_growth (cur : Qc) (col : list Qc) : res (option num) :=
  if (4 <? Z.of_nat (List.length col)) then
    base <- iloc_neg col 5 ;;
    if truthy base then Ok (Some (sub (div cur base) (Fin 1))) else Ok None
  else Ok None.

Definition column_sum (col : list Qc) : num := sum (map Fin col).
Definition column_mean (col : list Qc) : num := mean (map Fin col).

Definition calculate_financial_metrics
    (income : option (list IncomeRow)) (cashflow : option (list CashflowRow))
  : res (option Metrics) :=
  match income, cashflow with
  | Some income_raw, Some cashflow_raw =>
      (* chronological order *)
      let income_statement := flip income_raw in
      let cashflow_statement := flip cashflow_raw in
      last_income <- iloc_neg income_statement 1 ;;
      let revenue_ := revenue last_income in
      let gross_profit := grossProfit last_income in
      let net_income := netIncome last_income in
      let weighted_avg_shares := weightedAverageShsOut last_income in
      let eps_ := eps last_income in
      last_cashflow <- iloc_neg cashflow_statement 1 ;;
      let free_cash_flow := freeCashFlow last_cashflow in
      let fcf_per_share :=
        ratio_if weighted_avg_shares free_cash_flow weighted_avg_shares in
      let gross_margin := ratio_if revenue_ gross_profit revenue_ in
      let net_income_margin := ratio_if revenue_ net_income revenue_ in
      (* TTM *)
      let ttm_revenue := column_sum (iloc_last4 (map revenue income_statement)) in
      let ttm_gross_profit :=
        column_sum (iloc_last4 (map grossProfit income_statement)) in
      let ttm_net_income :=
        column_sum (iloc_last4 (map netIncome income_statement)) in
      let ttm_free_cash_flow :=
        column_sum (iloc_last4 (map freeCashFlow cashflow_statement)) in
      let ttm_fcf_per_share :=
        ratio_if weighted_avg_shares ttm_free_cash_flow
          (column_mean (iloc_last4 (map weightedAverageShsOut income_statement))) in
      let ttm_eps := column_sum (iloc_last4 (map eps income_statement)) in
      (* YoY *)
      yoy_revenue_growth <- yoy_growth revenue_ (map revenue income_statement) ;;
      yoy_eps_growth <- yoy_growth eps_ (map eps income_statement) ;;
      yoy_fcf_growth <-
        yoy_growth free_cash_flow (map freeCashFlow cashflow_statement) ;;
      Ok (Some (mk_metrics
        (mk_column (Some (Fin revenue_)) (Some (Fin gross_profit))
                   (Some (Fin net_income)) gross_margin net_income_margin
                   (Some (Fin free_cash_flow)) fcf_per_share (Some (Fin eps_))
                   yoy_revenue_growth yoy_eps_growth yoy_fcf_growth)
        (mk_column (Some ttm_revenue) (Some ttm_gross_profit)
                   (Some ttm_net_income)
                   (ratio_if ttm_revenue ttm_gross_profit ttm_revenue)
                   (ratio_if ttm_revenue ttm_net_income ttm_revenue)
                   (Some ttm_free_cash_flow) ttm_fcf_per_share (Some ttm_eps)
                   None None None)))
  | _, _ => Ok None
  end.

End StockDeepDive.

(** ** The specification's wording

    The definitions of this module follow the sentences of the specification,
    not the code; the theorems below compare the two. *)

Module Spec.

Local Open Scope Z_scope.

(** "months {1,4,7,10}" *)
Definition quarter_start_months : list Z := [1; 4; 7; 10].

(** "the month that starts the quarter containing the evaluation date":
    the latest quarter-start month not after the month of the date. *)
Definition quarter_start_month (m : Z) : Z :=
  fold_left (fun acc q => if q <=? m then q else acc) quarter_start_months 1.

(** "the 1st day of the month that starts the quarter" *)
Definition quarter_first_day (today : datetime) : datetime :=
  mk_datetime (year today) (quarter_start_month (month today)) 1.

(** [b] is "the day before" [d]. *)
Definition day_before (b d : datetime) : Prop :=
  valid_date b /\ toordinal b + 1 = toordinal d.

(** "the last PricePoint with date <= boundary" *)
Definition reference_point (boundary : datetime) (prices : list PricePoint)
  : option PricePoint :=
  find (fun p => date_leb (date p) boundary) (rev prices).

(** The first PricePoint with date >= boundary. *)
Definition first_point_from (boundary : datetime) (prices : list PricePoint)
  : option PricePoint :=
  find (fun p => date_leb boundary (date p)) prices.

(** "(last - reference) / reference * 100", in exact arithmetic. *)
Definition return_pct (last_close reference : Qc) : Qc :=
  ((last_close - reference) / reference * of_Z 100)%Qc.

(** "quarterReturnPct ... If no such point exists, the quarter return is
    unavailable." *)
Definition quarter_return (boundary : datetime) (prices : list PricePoint)
  : option Qc :=
  match rev prices, reference_point boundary prices with
  | last_point :: _, Some ref => Some (return_pct (close last_point) (close ref))
  | _, _ => None
  end.

(** "dayReturnPct = (last.close - secondLast.close) / secondLast.close * 100.
    Undefined (reported as unavailable) if fewer than 2 points." *)
Definition day_return (prices : list PricePoint) : option Qc :=
  match rev prices with
  | last_point :: second_last :: _ =>
      Some (return_pct (close last_point) (close second_last))
  | _ => None
  end.

(** "Sigma(weight_i * return_i) / 100" *)
Fixpoint weighted_sum (l : list (Qc * Qc)) : Qc :=
  match l with
  | [] => 0%Qc
  | (w, r) :: l' => (w * r + weighted_sum l')%Qc
  end.
Definition weighted_return (l : list (Qc * Qc)) : Qc :=
  (weighted_sum l / of_Z 100)%Qc.

(** "YoY growth = current / period[-5] - 1; requires at least 5 periods; if
    fewer, growth is unavailable", a zero base being unavailable too. *)
Definition yoy_growth (col : list Qc) : option Qc :=
  match rev col with
  | current :: _ :: _ :: _ :: base :: _ =>
      if is_zero base then None else Some (current / base - 1)%Qc
  | _ => None
  end.

(** The plain sum of a column. *)
Fixpoint total (l : list Qc) : Qc :=
  match l with
  | [] => 0%Qc
  | x :: l' => (x + total l')%Qc
  end.

End Spec.

(** ** Notions used in the statements *)

(** The rational a finite cell holds. *)
Definition value (x : num) : Qc :=
  match x with Fin q => q | _ => 0%Qc end.

(** A table whose weight and return columns hold finite numbers. *)
Definition finite_table (df : list Dashboard.Row) : bool :=
  forallb (fun r => is_finite (Dashboard.Weight r)
                    && is_finite (Dashboard.Quarterly_Return r)
                    && is_finite (Dashboard.Day_Gain r)) df.

(** The same for the tuples the loop appends. *)
Definition finite_tuples (data : list Dashboard.PerfTuple) : bool :=
  forallb (fun t => is_finite (Dashboard.t_weight t)
                    && is_finite (Dashboard.t_quarterly_return t)
                    && is_finite (Dashboard.t_day_gain t)) data.

(** ** Sample data *)

Module Examples.

Import Dashboard.

(** The price history of the specification's example, in May 2024. *)
Definition ex_today : datetime := mk_datetime 2024 5 15.
Definition ex_boundary : datetime := mk_datetime 2024 3 31.
Definition ex_p1 : PricePoint := mk_point (mk_datetime 2024 1 2) (of_Z 100).
Definition ex_p2 : PricePoint := mk_point (mk_datetime 2024 3 28) (of_Z 110).
Definition ex_p3 : PricePoint := mk_point (mk_datetime 2024 5 15) (of_Z 121).
Definition ex_prices : list PricePoint := [ex_p1; ex_p2; ex_p3].
Definition ex_api : string -> option (list PricePoint) := fun _ => Some ex_prices.
Definition ex_row : Holding := mk_holding "A" (of_Z 60).

(** A second holding, for which the API has no [historical] entry. *)
Definition ex_row_b : Holding := mk_holding "B" (of_Z 40).
Definition ex_api_missing : string -> option (list PricePoint) :=
  fun ticker => if String.eqb ticker "B" then None else Some ex_prices.

(** A history whose close at the end of the previous quarter is 0. *)
Definition ex_zero_prices : list PricePoint :=
  [ mk_point (mk_datetime 2024 3 28) 0%Qc;
    mk_point (mk_datetime 2024 5 14) (of_Z 100);
    mk_point (mk_datetime 2024 5 15) (of_Z 101) ].
Definition ex_api_zero : string -> option (list PricePoint) :=
  fun _ => Some ex_zero_prices.

(** A benchmark history whose previous close is 0. *)
Definition ex_spy_prices : list PricePoint :=
  [ mk_point (mk_datetime 2024 3 28) (of_Z 500);
    mk_point (mk_datetime 2024 5 14) 0%Qc;
    mk_point (mk_datetime 2024 5 15) (of_Z 510) ].
Definition ex_api_spy : string -> option (list PricePoint) :=
  fun _ => Some ex_spy_prices.

(** The two-holding table of the specification's aggregate example. *)
Definition ex_table : list Row :=
  [ mk_row "A" (of_Z 60) (of_Z 110) (of_Z 100) (of_Z 100) (of_Z 10) (of_Z 10) (of_Z 6);
    mk_row "B" (of_Z 40) (of_Z 95) (of_Z 100) (of_Z 100) (of_Z (-5)) (of_Z (-5))
           (of_Z (-2)) ].

(** Holding B with a history of one record, and with an empty history. *)
Definition ex_api_short : string -> option (list PricePoint) :=
  fun ticker => if String.eqb ticker "B" then Some [ex_p3] else Some ex_prices.
Definition ex_api_empty : string -> option (list PricePoint) :=
  fun ticker => if String.eqb ticker "B" then Some [] else Some ex_prices.

(** The report of the dashboard when holding A alone is in the table. *)
Definition ex_report_a : Report :=
  mk_report [ mk_row "A" (of_Z 60) (of_Z 121) (of_Z 110) (of_Z 110)
                     (of_Z 10) (of_Z 10) (of_Z 6) ]
            (Some (Fin (of_Z 10)), Some (Fin (of_Z 10)))
            (Fin (of_Z 6), Fin (of_Z 6))
            (Fin (of_Z (-4)), Fin (of_Z (-4))).

(** A holding of 100 percent in a stock that went from 300 to 301. *)
Definition ex_row_t : Holding := mk_holding "T" (of_Z 100).
Definition ex_prices_t : list PricePoint :=
  [ mk_point (mk_datetime 2024 3 28) (of_Z 300);
    mk_point (mk_datetime 2024 5 14) (of_Z 300);
    mk_point (mk_datetime 2024 5 15) (of_Z 301) ].
Definition ex_api_t : string -> option (list PricePoint) :=
  fun _ => Some ex_prices_t.
Definition ex_tuple_t : PerfTuple :=
  mk_tuple "T" (of_Z 100) (of_Z 301) (of_Z 300) (of_Z 300)
           (Q2Qc (1 # 3)) (Q2Qc (1 # 3)).
Definition ex_report_t : Report :=
  mk_report [ mk_row "T" (of_Z 100) (of_Z 301) (of_Z 300) (of_Z 300)
                     (Q2Qc (33 # 100)) (Q2Qc (33 # 100)) (Q2Qc (33 # 100)) ]
            (Some (Fin (Q2Qc (1 # 3))), Some (Fin (Q2Qc (1 # 3))))
            (Fin (Q2Qc (33 # 100)), Fin (Q2Qc (33 # 100)))
            (Fin (Q2Qc (-1 # 300)), Fin (Q2Qc (-1 # 300))).

(** Three holdings of 30, 30 and 40 percent in stocks that went from 10000
    to 10001, and a fourth, S, for which the API has no [historical]
    entry. *)
Definition ex_row_p : Holding := mk_holding "P" (of_Z 30).
Definition ex_row_q : Holding := mk_holding "Q" (of_Z 30).
Definition ex_row_r : Holding := mk_holding "R" (of_Z 40).
Definition ex_row_s : Holding := mk_holding "S" (of_Z 10).
Definition ex_prices_pqr : list PricePoint :=
  [ mk_point (mk_datetime 2024 3 28) (of_Z 10000);
    mk_point (mk_datetime 2024 5 14) (of_Z 10000);
    mk_point (mk_datetime 2024 5 15) (of_Z 10001) ].
Definition ex_api_pqr : string -> option (list PricePoint) :=
  fun ticker => if String.eqb ticker "S" then None else Some ex_prices_pqr.
Definition ex_shown_pqr (ticker : string) (weight : Z) : Row :=
  mk_row ticker (of_Z weight) (of_Z 10001) (of_Z 10000) (of_Z 10000)
         (Q2Qc (1 # 100)) (Q2Qc (1 # 100)) 0%Qc.
Definition ex_report_pqr : Report :=
  mk_report [ex_shown_pqr "P" 30; ex_shown_pqr "Q" 30; ex_shown_pqr "R" 40]
            (Some (Fin (Q2Qc (1 # 100))), Some (Fin (Q2Qc (1 # 100))))
            (Fin (Q2Qc (1 # 100)), Fin (Q2Qc (1 # 100)))
            (Fin 0%Qc, Fin 0%Qc).

(** Five quarters, oldest first, the share count of the latest reported
    as 0, and their cash flows. *)
Definition ex_q0 := StockDeepDive.mk_income (of_Z 8) (of_Z 3) (of_Z 1) (of_Z 100) (of_Z 2).
Definition ex_q1 := StockDeepDive.mk_income (of_Z 10) (of_Z 4) (of_Z 2) (of_Z 100) (of_Z 1).
Definition ex_q2 := StockDeepDive.mk_income (of_Z 20) (of_Z 8) (of_Z 4) (of_Z 100) (of_Z 2).
Definition ex_q3 := StockDeepDive.mk_income (of_Z 30) (of_Z 12) (of_Z 6) (of_Z 100) (of_Z 3).
Definition ex_q4 := StockDeepDive.mk_income (of_Z 40) (of_Z 16) (of_Z 8) 0%Qc (of_Z 4).
Definition ex_c1 := StockDeepDive.mk_cashflow (of_Z 15).
Definition ex_c2 := StockDeepDive.mk_cashflow (of_Z 25).

End Examples.
Import Examples.

(** ** Dashboard.py: the password gate *)

Module Gate.

Local Open Scope string_scope.

Section Upload.

(** What [st.file_uploader] hands over. *)
Variable UploadedFile : Type.

(** The file the page goes on to read. *)
Inductive File :=
| FromFolder (name : string)
| Uploaded (f : UploadedFile).

(** [password == stored_password], the stored one being [os.getenv(...)],
    which is [None] when the variable is not set. *)
Definition password_matches (password : string) (stored_password : option string) : bool :=
  match stored_password with
  | Some s => String.eqb password s
  | None => false
  end.

(** [uploaded_file] is the answer of the upload widget, asked for only when
    the password does not match.  The [try] block holds a plain [return], so
    its [except FileNotFoundError] branch has nothing to catch. *)
Definition authenticate_and_load_portfolio
    (password : string) (stored_password : option string)
    (uploaded_file : option UploadedFile) : option File * string :=
  if password_matches password stored_password then
    (Some (FromFolder "portfolio_weights_current.csv"), "File loaded from folder.")
  else
    match uploaded_file with
    | Some f => (Some (Uploaded f), "File uploaded successfully.")
    | None => (None, "Please provide a valid password or upload a file.")
    end.

End Upload.

Arguments FromFolder {UploadedFile} name.
Arguments Uploaded {UploadedFile} f.
Arguments authenticate_and_load_portfolio {UploadedFile}
  password stored_password uploaded_file.

End Gate.

(** ** pages/1_Stock_Deep_Dive.py: the chart and the earnings date *)

Module DeepDivePage.

Import StockDeepDive.

(** Which history a trace draws. *)
Inductive series := Stock | Benchmark.

(** A [go.Scatter] trace: its points, and whether they are cumulative
    returns or prices. *)
Record trace := mk_trace {
  t_series : series;
  t_cumulative : bool;
  t_x : list datetime;
  t_y : list num
}.

Definition closes (l : list PricePoint) : list num := map (fun p => Fin (close p)) l.
Definition dates (l : list PricePoint) : list datetime := map date l.

(** The chart of the page for the QTD and YTD views: [stock_prices] is the
    frame [get_historical_prices] returned for the ticker, [spy_data] the
    [historical] entry of the SPY response, [add_spy] and [rebase] the two
    checkboxes. *)
Definition chart (today : datetime) (view : chart_view)
    (stock_prices : list PricePoint) (add_spy : bool)
    (spy_data : option (list PricePoint)) (rebase : bool) : res (list trace) :=
  start <- start_date view today ;;
  let filtered_prices := on_or_after start stock_prices in
  spy_prices <- (if add_spy then get_historical_prices spy_data else Ok None) ;;
  let filtered_spy_prices := option_map (on_or_after start) spy_prices in
  if rebase then
    stock_traces <-
      (if negb (empty filtered_prices)
       then rebased_stock_returns <- rebase_prices (closes filtered_prices) ;;
            Ok [mk_trace Stock true (dates filtered_prices) rebased_stock_returns]
       else Ok []) ;;
    spy_traces <-
      (match add_spy, filtered_spy_prices with
       | true, Some spy =>
           rebased_spy_returns <- rebase_prices (closes spy) ;;
           Ok [mk_trace Benchmark true (dates spy) rebased_spy_returns]
       | _, _ => Ok []
       end) ;;
    Ok (stock_traces ++ spy_traces)
  else
    Ok (mk_trace Stock false (dates filtered_prices) (closes filtered_prices)
        :: match add_spy, filtered_spy_prices with
           | true, Some spy => [mk_trace Benchmark false (dates spy) (closes spy)]
           | _, _ => []
           end).

Fixpoint insert_date (d : datetime) (l : list datetime) : list datetime :=
  match l with
  | [] => [d]
  | e :: l' => if date_leb d e then d :: e :: l' else e :: insert_date d l'
  end.

(** [sort_values("date")] on the frame of earnings dates. *)
Fixpoint sort_dates (l : list datetime) : list datetime :=
  match l with
  | [] => []
  | d :: l' => insert_date d (sort_dates l')
  end.

(** [get_earnings_date]: [data] holds the [date] of each record of the
    calendar, at midnight; a midnight is after [datetime.today()] exactly
    when its day is after today's, whatever the time of day. *)
Definition get_earnings_date (today : datetime) (status_code : Z)
    (data : list datetime) : res (option datetime) :=
  if (status_code =? 200)%Z && negb (empty data) then
    let future_dates := filter (fun d => negb (date_leb d today)) data in
    if negb (empty future_dates) then
      next_earnings_date <- iloc0 (sort_dates future_dates) ;;
      Ok (Some next_earnings_date)
    else Ok None
  else Ok None.

End DeepDivePage.

(** ** Notions used in the further statements *)

(** The string holds an underscore. *)
Fixpoint has_underscore (s : string) : bool :=
  match s with
  | EmptyString => false
  | String c s' => Ascii.eqb c "_"%char || has_underscore s'
  end.

(** The holding gets a row: its three closes are there and non-zero. *)
Definition included (today : datetime) (api : string -> option (list PricePoint))
    (h : Dashboard.Holding) : bool :=
  match Dashboard.get_stock_price today api (Dashboard.Tickers h) with
  | Ok (Some c, Some y, Some q) => truthy c && truthy y && truthy q
  | _ => false
  end.

(** Dates in ascending order, equal dates allowed. *)
Fixpoint dates_sorted (l : list datetime) : bool :=
  match l with
  | d :: ((e :: _) as l') => date_leb d e && dates_sorted l'
  | _ => true
  end.

(** The eleven cells of a column of the metrics table. *)
Definition cells (c : StockDeepDive.Column) : list (option num) :=
  [ StockDeepDive.Revenue c; StockDeepDive.Gross_Profit c;
    StockDeepDive.Net_Income c; StockDeepDive.Gross_Margin c;
    StockDeepDive.Net_Income_Margin c; StockDeepDive.Free_Cash_Flow c;
    StockDeepDive.FCF_per_Share c; StockDeepDive.EPS c;
    StockDeepDive.YoY_Revenue_Growth c; StockDeepDive.YoY_EPS_Growth c;
    StockDeepDive.YoY_FCF_Growth c ].

(** ** Further sample data *)

(** The report of a run in which the only holding has no price data. *)
Definition ex_report_empty : Dashboard.Report :=
  Dashboard.mk_report []
    (Some (Dashboard.pct_change (of_Z 121) (of_Z 110)),
     Some (Dashboard.pct_change (of_Z 121) (of_Z 110)))
    (div (Fin 0%Qc) (Fin (of_Z 100)), div (Fin 0%Qc) (Fin (of_Z 100)))
    (sub (div (Fin 0%Qc) (Fin (of_Z 100)))
         (Dashboard.pct_change (of_Z 121) (of_Z 110)),
     sub (div (Fin 0%Qc) (Fin (of_Z 100)))
         (Dashboard.pct_change (of_Z 121) (of_Z 110))).

(** * Properties *)

(** Evaluation of a closed term, rationals compared by value. *)
Ltac qc_eval :=
  vm_compute;
  repeat first [ reflexivity | apply Qc_is_canon; reflexivity | f_equal ].

(** Numbers of the model that differ in value. *)
Ltac num_neq :=
  let H := fresh in
  intros H; apply (f_equal (fun x => this (value x))) in H;
  vm_compute in H; discriminate H.

(** ** Arithmetic of the model *)

Local Open Scope Qc_scope.

Lemma is_zero_true (q : Qc) : is_zero q = true <-> q = 0.
Proof.
  unfold is_zero. rewrite Z.eqb_eq. split.
  - intros H. apply Qc_is_canon. unfold Qeq. simpl. rewrite H. reflexivity.
  - intros ->. reflexivity.
Qed.

Lemma is_zero_false (q : Qc) : is_zero q = false <-> q <> 0.
Proof.
  rewrite <- is_zero_true. destruct (is_zero q); split; congruence.
Qed.

Lemma truthy_fin (q : Qc) : truthy q = true <-> q <> 0.
Proof.
  simpl. rewrite negb_true_iff. apply is_zero_false.
Qed.

Lemma hundred_nonzero : of_Z 100 <> 0.
Proof. intros H. apply (f_equal this) in H. discriminate H. Qed.

Lemma div_fin (a b : Qc) : b <> 0 -> div a b = Fin (a / b).
Proof.
  intros H. simpl. apply is_zero_false in H. rewrite H. reflexivity.
Qed.

Lemma div_hundred (a : Qc) : div a (of_Z 100) = Fin (a / of_Z 100).
Proof. apply div_fin, hundred_nonzero. Qed.

Lemma pct_change_fin (a b : Qc) :
  b <> 0 -> Dashboard.pct_change a b = Fin (Spec.return_pct a b).
Proof.
  intros H. unfold Dashboard.pct_change, Spec.return_pct, sub.
  simpl neg. simpl add. rewrite div_fin by assumption. reflexivity.
Qed.

Lemma fold_add_fin (l : list Qc) (acc : Qc) :
  fold_left add (map Fin l) (Fin acc) = Fin (acc + Spec.total l).
Proof.
  revert acc. induction l as [|x l IH]; intros acc; simpl.
  - f_equal. ring.
  - rewrite IH. f_equal. ring.
Qed.

Lemma filter_nan_fin (l : list Qc) :
  filter (fun x => negb (is_nan x)) (map Fin l) = map Fin l.
Proof.
  induction l as [|x l IH]; simpl; [reflexivity | now rewrite IH].
Qed.

Lemma sum_fin (l : list Qc) : sum (map Fin l) = Fin (Spec.total l).
Proof.
  unfold sum. rewrite filter_nan_fin, fold_add_fin. f_equal. ring.
Qed.

Lemma of_Z_nonzero (z : Z) : z <> 0%Z -> of_Z z <> 0.
Proof.
  intros Hz H. unfold of_Z in H. apply Q2Qc_eq_iff in H.
  unfold Qeq in H. simpl in H. lia.
Qed.

Lemma mean_fin (l : list Qc) :
  l <> [] ->
  mean (map Fin l) = Fin (Spec.total l / of_Z (Z.of_nat (List.length l))).
Proof.
  intros Hl. unfold mean. rewrite filter_nan_fin, fold_add_fin, length_map.
  rewrite div_fin.
  - f_equal. f_equal. ring.
  - apply of_Z_nonzero. destruct l; [congruence | simpl; lia].
Qed.

(** ** The calendar *)

Local Open Scope Z_scope.

Lemma date_leb_le (a b : datetime) : date_leb a b = true <-> date_le a b.
Proof.
  unfold date_leb, date_le.
  rewrite !orb_true_iff, !andb_true_iff, !orb_true_iff, !andb_true_iff.
  rewrite !Z.ltb_lt, !Z.eqb_eq, Z.leb_le. reflexivity.
Qed.

Lemma date_leb_gt (a b : datetime) : date_leb a b = false <-> date_lt b a.
Proof.
  unfold date_lt. rewrite <- date_leb_le. destruct (date_leb a b); split; congruence.
Qed.

Lemma date_le_trans (a b c : datetime) : date_le a b -> date_le b c -> date_le a c.
Proof. unfold date_le. lia. Qed.

Lemma date_le_total (a b : datetime) : date_le a b \/ date_le b a.
Proof. unfold date_le. lia. Qed.

Lemma date_lt_le (a b : datetime) : date_lt a b -> date_le a b.
Proof. unfold date_lt, date_le. lia. Qed.

Lemma date_le_antisym (a b : datetime) : date_le a b -> date_le b a -> a = b.
Proof.
  destruct a, b. unfold date_le. simpl. intros H1 H2.
  assert (year0 = year1 /\ month0 = month1 /\ day0 = day1) as (-> & -> & ->) by lia.
  reflexivity.
Qed.

Lemma leap_step (z : Z) :
  z / 4 - z / 100 + z / 400
  = (z - 1) / 4 - (z - 1) / 100 + (z - 1) / 400 + (if is_leap z then 1 else 0).
Proof.
  unfold is_leap.
  destruct (z mod 4 =? 0) eqn:E4; destruct (z mod 100 =? 0) eqn:E100;
    destruct (z mod 400 =? 0) eqn:E400; simpl;
    rewrite ?Z.eqb_eq, ?Z.eqb_neq in *;
    Z.to_euclidean_division_equations; lia.
Qed.

Lemma days_before_year_succ (y : Z) :
  days_before_year y
  = days_before_year (y - 1) + 365 + (if is_leap (y - 1) then 1 else 0).
Proof.
  unfold days_before_year. cbv zeta.
  replace (y - 1 - 1) with ((y - 1) - 1) by lia.
  pose proof (leap_step (y - 1)). lia.
Qed.

Lemma quarter_start_cases (m : Z) :
  1 <= m <= 12 ->
  (m - 1) / 3 * 3 + 1 = Spec.quarter_start_month m
  /\ In ((m - 1) / 3 * 3 + 1) Spec.quarter_start_months
  /\ (m - 1) / 3 * 3 + 1 <= m < (m - 1) / 3 * 3 + 1 + 3.
Proof.
  intros Hm.
  assert (m = 1 \/ m = 2 \/ m = 3 \/ m = 4 \/ m = 5 \/ m = 6 \/ m = 7 \/ m = 8
          \/ m = 9 \/ m = 10 \/ m = 11 \/ m = 12) as Hc by lia.
  repeat (destruct Hc as [-> | Hc]); try subst m; vm_compute; intuition congruence.
Qed.

Lemma days_in_month_pos (y m : Z) : 28 <= days_in_month y m <= 31.
Proof.
  unfold days_in_month.
  destruct (m =? 2); [destruct (is_leap y); lia |].
  destruct ((m =? 4) || (m =? 6) || (m =? 9) || (m =? 11))%bool; lia.
Qed.

(** [minus_one_day] lands on the calendar day whose ordinal is one less. *)
Lemma minus_one_day_ordinal (d : datetime) :
  valid_date d ->
  MINYEAR < year d \/ 1 < month d \/ 1 < day d ->
  exists b, minus_one_day d = Ok b /\ Spec.day_before b d.
Proof.
  destruct d as [y m dd]. unfold valid_date, Spec.day_before, minus_one_day, MINYEAR.
  simpl year; simpl month; simpl day.
  intros (Hy & Hm & Hd) Hne.
  destruct (1 <? dd) eqn:E1; [apply Z.ltb_lt in E1 | apply Z.ltb_ge in E1].
  - eexists. split; [reflexivity |]. unfold valid_date, toordinal, MINYEAR. simpl.
    repeat split; lia.
  - assert (dd = 1) as -> by lia.
    destruct (1 <? m) eqn:E2; [apply Z.ltb_lt in E2 | apply Z.ltb_ge in E2].
    + eexists. split; [reflexivity |].
      pose proof (days_in_month_pos y (m - 1)).
      unfold valid_date, MINYEAR. simpl year; simpl month; simpl day.
      split; [repeat split; lia |].
      assert (m = 2 \/ m = 3 \/ m = 4 \/ m = 5 \/ m = 6 \/ m = 7 \/ m = 8
              \/ m = 9 \/ m = 10 \/ m = 11 \/ m = 12) as Hc by lia.
      unfold toordinal, days_before_month. simpl year; simpl month; simpl day.
      repeat (destruct Hc as [-> | Hc]); try subst m;
        simpl; unfold days_in_month; simpl; destruct (is_leap y); lia.
    + assert (m = 1) as -> by lia.
      assert ((1 <? y) = true) as -> by (apply Z.ltb_lt; lia).
      eexists. split; [reflexivity |].
      unfold valid_date, MINYEAR. simpl year; simpl month; simpl day.
      split; [repeat split; try lia; vm_compute; congruence |].
      unfold toordinal, days_before_month. simpl year; simpl month; simpl day.
      rewrite (days_before_year_succ y).
      simpl; unfold days_in_month; simpl; destruct (is_leap (y - 1)); lia.
Qed.

Lemma quarter_first_day_valid (today : datetime) :
  valid_date today ->
  valid_date (mk_datetime (year today) (Dashboard.current_quarter_start today) 1).
Proof.
  intros (Hy & Hm & Hd).
  destruct (quarter_start_cases _ Hm) as (_ & _ & Hq).
  pose proof (days_in_month_pos (year today) (Dashboard.current_quarter_start today)).
  unfold valid_date, Dashboard.current_quarter_start in *. simpl. lia.
Qed.

(** C8: for every evaluation date the clock can give (a calendar date after
    March of year 1, before which [datetime] has no previous day), the
    previous-quarter-end boundary of the dashboard, and the QTD start date of
    the deep-dive page and of its chart, is the day before the 1st day of the
    month that starts the quarter containing the date, that month being one of
    1, 4, 7, 10; evaluation date 2024-05-15 gives 2024-03-31 and 2024-01-15
    gives 2023-12-31. *)
Theorem previous_quarter_end_day_before_quarter :
  (forall today : datetime,
      valid_date today -> MINYEAR < year today \/ 3 < month today ->
      exists boundary,
        Dashboard.previous_quarter_end today = Ok boundary
        /\ StockDeepDive.qtd_start_date today = Ok boundary
        /\ StockDeepDive.start_date StockDeepDive.QTD today = Ok boundary
        /\ In (Dashboard.current_quarter_start today) Spec.quarter_start_months
        /\ Dashboard.current_quarter_start today
           = Spec.quarter_start_month (month today)
        /\ Spec.day_before boundary (Spec.quarter_first_day today))
  /\ Dashboard.previous_quarter_end (mk_datetime 2024 5 15)
     = Ok (mk_datetime 2024 3 31)
  /\ Dashboard.previous_quarter_end (mk_datetime 2024 1 15)
     = Ok (mk_datetime 2023 12 31).
Proof.
  split; [| split; reflexivity].
  intros today Hv Hy.
  pose proof (quarter_first_day_valid _ Hv) as Hq.
  destruct Hv as (_ & Hm & _).
  destruct (quarter_start_cases _ Hm) as (Hspec & Hin & Hrange).
  destruct (minus_one_day_ordinal _ Hq) as (b & Hb & Hday).
  { unfold Dashboard.current_quarter_start. cbn [year month day]. lia. }
  exists b. unfold Dashboard.previous_quarter_end, StockDeepDive.qtd_start_date.
  simpl StockDeepDive.start_date.
  unfold Dashboard.current_quarter_start in *.
  split; [exact Hb |]. split; [exact Hb |]. split; [exact Hb |].
  split; [exact Hin |]. split; [exact Hspec |].
  unfold Spec.quarter_first_day. rewrite <- Hspec. exact Hday.
Qed.

Lemma previous_quarter_end_day_before_quarter_witness :
  exists boundary,
    Dashboard.previous_quarter_end (mk_datetime 2024 8 20) = Ok boundary
    /\ StockDeepDive.qtd_start_date (mk_datetime 2024 8 20) = Ok boundary
    /\ StockDeepDive.start_date StockDeepDive.QTD (mk_datetime 2024 8 20) = Ok boundary
    /\ In (Dashboard.current_quarter_start (mk_datetime 2024 8 20))
          Spec.quarter_start_months
    /\ Dashboard.current_quarter_start (mk_datetime 2024 8 20)
       = Spec.quarter_start_month 8
    /\ Spec.day_before boundary (Spec.quarter_first_day (mk_datetime 2024 8 20)).
Proof.
  apply (proj1 previous_quarter_end_day_before_quarter (mk_datetime 2024 8 20)).
  - repeat split; vm_compute; congruence.
  - left. reflexivity.
Defined.

(** Before April of year 1 the subtraction leaves the range of [datetime]. *)
Lemma previous_quarter_end_overflow (m d : Z) :
  1 <= m <= 3 ->
  Dashboard.previous_quarter_end (mk_datetime MINYEAR m d) = Raise OverflowError.
Proof.
  intros Hm. unfold Dashboard.previous_quarter_end, Dashboard.current_quarter_start.
  cbn [year month].
  assert (m = 1 \/ m = 2 \/ m = 3) as [-> | [-> | ->]] by lia; reflexivity.
Qed.

(** ** Frames *)

Lemma ascending_tail (p : PricePoint) (l : list PricePoint) :
  ascending (p :: l) = true -> ascending l = true.
Proof.
  destruct l as [|q l]; [reflexivity |].
  cbn [ascending]. intros H. apply andb_true_iff in H. apply H.
Qed.

(** In an ascending history every later point is dated strictly after. *)
Lemma ascending_head_lt (p : PricePoint) (l : list PricePoint) :
  ascending (p :: l) = true -> forall q, In q l -> date_lt (date p) (date q).
Proof.
  revert p. induction l as [|r l IH]; intros p H q Hin; [destruct Hin |].
  cbn [ascending] in H. apply andb_true_iff in H. destruct H as [Hpr Hrest].
  apply negb_true_iff, date_leb_gt in Hpr.
  destruct Hin as [<- | Hin]; [exact Hpr |].
  specialize (IH r Hrest q Hin).
  unfold date_lt, date_le in *. lia.
Qed.

Lemma sort_values_ascending (l : list PricePoint) :
  ascending l = true -> sort_values l = l.
Proof.
  induction l as [|p l IH]; intros H; [reflexivity |].
  cbn [sort_values]. rewrite (IH (ascending_tail _ _ H)).
  destruct l as [|q l]; [reflexivity |].
  cbn [insert_by_date].
  assert (date_lt (date p) (date q)) as Hlt
      by (apply (ascending_head_lt _ _ H); left; reflexivity).
  apply date_lt_le, date_leb_le in Hlt. rewrite Hlt. reflexivity.
Qed.

Lemma filter_rev {A} (f : A -> bool) (l : list A) :
  filter f (rev l) = rev (filter f l).
Proof.
  induction l as [|a l IH]; [reflexivity |].
  simpl. rewrite filter_app, IH. simpl.
  destruct (f a); simpl; [reflexivity | now rewrite app_nil_r].
Qed.

Lemma hd_filter_find {A} (f : A -> bool) (l : list A) :
  hd_error (filter f l) = find f l.
Proof.
  induction l as [|a l IH]; [reflexivity |].
  simpl. destruct (f a); [reflexivity | exact IH].
Qed.

Lemma iloc_neg_1 {A} (l : list A) :
  iloc_neg l 1 = match rev l with a :: _ => Ok a | [] => Raise IndexError end.
Proof. unfold iloc_neg. simpl. destruct (rev l); reflexivity. Qed.

Lemma iloc_neg_2 {A} (l : list A) :
  iloc_neg l 2
  = match rev l with _ :: b :: _ => Ok b | _ => Raise IndexError end.
Proof. unfold iloc_neg. simpl. destruct (rev l) as [|a [|b r]]; reflexivity. Qed.

Lemma empty_rev {A} (l : list A) : empty (rev l) = empty l.
Proof.
  destruct l as [|a l]; [reflexivity |]. simpl.
  destruct (rev l); reflexivity.
Qed.

(** The last row on or before the boundary, as the dashboard selects it. *)
Lemma last_on_or_before (boundary : datetime) (prices : list PricePoint) :
  (if negb (empty (on_or_before boundary prices))
   then p <- iloc_neg (on_or_before boundary prices) 1 ;; Ok (Some (close p))
   else Ok None)
  = Ok (option_map close (Spec.reference_point boundary prices)).
Proof.
  unfold Spec.reference_point. rewrite <- hd_filter_find, filter_rev.
  rewrite iloc_neg_1. fold (on_or_before boundary prices).
  rewrite <- (empty_rev (on_or_before boundary prices)).
  destruct (rev (on_or_before boundary prices)); reflexivity.
Qed.

(** The first row on or after the start date, as the deep-dive page selects it. *)
Lemma first_on_or_after (start : datetime) (prices : list PricePoint) :
  (if negb (empty (on_or_after start prices))
   then p <- iloc0 (on_or_after start prices) ;; Ok (Some (close p))
   else Ok None)
  = Ok (option_map close (hd_error (on_or_after start prices))).
Proof. destruct (on_or_after start prices); reflexivity. Qed.

Lemma rev_two_points {A} (l : list A) :
  (2 <= List.length l)%nat ->
  exists last_point second_last rest, rev l = last_point :: second_last :: rest.
Proof.
  intros H. rewrite <- length_rev in H.
  destruct (rev l) as [|a [|b r]]; simpl in H; try lia.
  now exists a, b, r.
Qed.

Lemma find_app_split {A} (f : A -> bool) (l1 l2 : list A) :
  find f (l1 ++ l2)
  = match find f l1 with Some x => Some x | None => find f l2 end.
Proof.
  induction l1 as [|a l1 IH]; [reflexivity |].
  simpl. destruct (f a); [reflexivity | exact IH].
Qed.

(** For an ascending history the dashboard's reference is the most recent
    point at or before the boundary. *)
Lemma reference_point_most_recent (boundary : datetime) (prices : list PricePoint) (p : PricePoint) :
  ascending prices = true ->
  Spec.reference_point boundary prices = Some p ->
  In p prices /\ date_le (date p) boundary
  /\ forall q, In q prices -> date_le (date q) boundary -> date_le (date q) (date p).
Proof.
  unfold Spec.reference_point.
  induction prices as [|a l IH]; intros Hasc Hfind; [discriminate |].
  simpl in Hfind. rewrite find_app_split in Hfind.
  destruct (find (fun p0 => date_leb (date p0) boundary) (rev l)) as [p'|] eqn:E.
  - injection Hfind as ->.
    destruct (IH (ascending_tail _ _ Hasc) eq_refl) as (Hin & Hle & Hmax).
    split; [right; exact Hin |]. split; [exact Hle |].
    intros q [<- | Hq] Hqb.
    + apply date_lt_le. apply (ascending_head_lt _ _ Hasc). exact Hin.
    + apply Hmax; assumption.
  - simpl in Hfind. destruct (date_leb (date a) boundary) eqn:Ea; [| discriminate].
    injection Hfind as ->. apply date_leb_le in Ea.
    split; [left; reflexivity |]. split; [exact Ea |].
    intros q [<- | Hq] Hqb.
    + unfold date_le. lia.
    + exfalso. apply date_leb_le in Hqb.
      rewrite (find_none _ _ E q) in Hqb; [discriminate |].
      apply in_rev in Hq. exact Hq.
Qed.

Lemma reference_point_none (boundary : datetime) (prices : list PricePoint) :
  Spec.reference_point boundary prices = None <->
  forall q, In q prices -> date_lt boundary (date q).
Proof.
  unfold Spec.reference_point. split.
  - intros H q Hq. apply date_leb_gt.
    apply (find_none _ _ H q). apply in_rev in Hq. exact Hq.
  - intros H.
    destruct (find (fun p => date_leb (date p) boundary) (rev prices)) as [p|] eqn:E;
      [| reflexivity].
    apply find_some in E. destruct E as [Hin Hp].
    apply in_rev in Hin. apply H, date_leb_gt in Hin. congruence.
Qed.

(** For an ascending history the deep-dive page's reference is the earliest
    point at or after the boundary. *)
Lemma first_from_earliest (boundary : datetime) (prices : list PricePoint) (p : PricePoint) :
  ascending prices = true ->
  hd_error (on_or_after boundary prices) = Some p ->
  In p prices /\ date_le boundary (date p)
  /\ forall q, In q prices -> date_le boundary (date q) -> date_le (date p) (date q).
Proof.
  unfold on_or_after. rewrite hd_filter_find.
  induction prices as [|a l IH]; intros Hasc Hfind; [discriminate |].
  simpl in Hfind. destruct (date_leb boundary (date a)) eqn:Ea.
  - injection Hfind as ->. apply date_leb_le in Ea.
    split; [left; reflexivity |]. split; [exact Ea |].
    intros q [<- | Hq] _.
    + unfold date_le. lia.
    + apply date_lt_le. apply (ascending_head_lt _ _ Hasc). exact Hq.
  - destruct (IH (ascending_tail _ _ Hasc) Hfind) as (Hin & Hle & Hmin).
    split; [right; exact Hin |]. split; [exact Hle |].
    intros q [<- | Hq] Hqb.
    + apply date_leb_le in Hqb. congruence.
    + apply Hmin; assumption.
Qed.

Lemma ascending_date_inj (l : list PricePoint) (p q : PricePoint) :
  ascending l = true -> In p l -> In q l -> date p = date q -> p = q.
Proof.
  induction l as [|a l IH]; intros Hasc Hp Hq Hd; [destruct Hp |].
  pose proof (ascending_head_lt _ _ Hasc) as Hlt.
  destruct Hp as [<- | Hp], Hq as [<- | Hq].
  - reflexivity.
  - exfalso. apply (Hlt q Hq). rewrite Hd. unfold date_le. lia.
  - exfalso. apply (Hlt p Hp). rewrite Hd. unfold date_le. lia.
  - apply IH; try assumption. apply (ascending_tail _ _ Hasc).
Qed.

(** The two references coincide when a point is dated on the boundary. *)
Lemma references_agree_on_boundary (boundary : datetime) (prices : list PricePoint) (p : PricePoint) :
  ascending prices = true -> In p prices -> date p = boundary ->
  Spec.reference_point boundary prices = Some p
  /\ hd_error (on_or_after boundary prices) = Some p.
Proof.
  intros Hasc Hin Hd.
  assert (date_le (date p) boundary /\ date_le boundary (date p)) as [Hle Hge]
      by (rewrite Hd; unfold date_le; lia).
  split.
  - destruct (Spec.reference_point boundary prices) as [r|] eqn:E.
    + destruct (reference_point_most_recent _ _ _ Hasc E) as (Hr & Hrb & Hmax).
      specialize (Hmax p Hin Hle).
      f_equal. apply (ascending_date_inj _ _ _ Hasc Hr Hin).
      apply date_le_antisym; [| exact Hmax]. rewrite Hd. exact Hrb.
    + exfalso. rewrite reference_point_none in E. exact (E p Hin Hle).
  - destruct (hd_error (on_or_after boundary prices)) as [r|] eqn:E.
    + destruct (first_from_earliest _ _ _ Hasc E) as (Hr & Hrb & Hmin).
      specialize (Hmin p Hin Hge).
      f_equal. apply (ascending_date_inj _ _ _ Hasc Hr Hin).
      apply date_le_antisym; [exact Hmin |]. rewrite Hd. exact Hrb.
    + exfalso. unfold on_or_after in E. rewrite hd_filter_find in E.
      apply (find_none _ _ E) in Hin. apply date_leb_le in Hge. congruence.
Qed.

(** ** Price returns *)

Lemma nonempty_of_rev {A} (l : list A) (a : A) (r : list A) :
  rev l = a :: r -> empty l = false.
Proof. destruct l; [discriminate | reflexivity]. Qed.

Lemma pct_change_truthy (a b : Qc) :
  truthy b = true -> Dashboard.pct_change a b = Fin (Spec.return_pct a b).
Proof. intros H. apply pct_change_fin, truthy_fin, H. Qed.

Lemma get_stock_price_ascending
    (today : datetime) (api : string -> option (list PricePoint)) (ticker : string)
    (prices : list PricePoint) (boundary : datetime)
    (last_point second_last : PricePoint) (rest : list PricePoint) :
  api ticker = Some prices ->
  ascending prices = true ->
  rev prices = last_point :: second_last :: rest ->
  Dashboard.previous_quarter_end today = Ok boundary ->
  Dashboard.get_stock_price today api ticker
  = Ok (Some (close last_point), Some (close second_last),
        option_map close (Spec.reference_point boundary prices)).
Proof.
  intros Hapi Hasc Hrev Hb. unfold Dashboard.get_stock_price.
  rewrite Hapi, (nonempty_of_rev _ _ _ Hrev), (sort_values_ascending _ Hasc).
  rewrite iloc_neg_1, iloc_neg_2, Hrev. cbn [bind]. rewrite Hb. cbn [bind].
  rewrite last_on_or_before. reflexivity.
Qed.

Lemma get_historical_prices_ascending (prices : list PricePoint) :
  ascending prices = true -> prices <> [] ->
  StockDeepDive.get_historical_prices (Some prices) = Ok (Some prices).
Proof.
  intros Hasc Hne. unfold StockDeepDive.get_historical_prices.
  destruct prices as [|p l]; [congruence |].
  cbn [empty]. now rewrite sort_values_ascending.
Qed.

Lemma calculate_returns_ascending
    (today : datetime) (prices : list PricePoint) (boundary : datetime)
    (last_point second_last : PricePoint) (rest : list PricePoint) :
  rev prices = last_point :: second_last :: rest ->
  StockDeepDive.qtd_start_date today = Ok boundary ->
  StockDeepDive.calculate_returns today (Some prices)
  = Ok (if truthy (close second_last)
        then Some (Fin (Spec.return_pct (close last_point) (close second_last)))
        else None,
        match hd_error (on_or_after boundary prices) with
        | Some ref =>
            if truthy (close ref)
            then Some (Fin (Spec.return_pct (close last_point) (close ref)))
            else None
        | None => None
        end).
Proof.
  intros Hrev Hb. unfold StockDeepDive.calculate_returns.
  rewrite (nonempty_of_rev _ _ _ Hrev). cbn [negb].
  rewrite iloc_neg_1, iloc_neg_2, Hrev. cbn [bind]. rewrite Hb. cbn [bind].
  rewrite first_on_or_after. cbn [bind]. f_equal. f_equal.
  - destruct (truthy (close second_last)) eqn:E; [| reflexivity].
    now rewrite pct_change_truthy.
  - destruct (hd_error (on_or_after boundary prices)) as [ref|]; [| reflexivity].
    cbn [option_map]. destruct (truthy (close ref)) eqn:E; [| reflexivity].
    now rewrite pct_change_truthy.
Qed.

(** The reference of each page.  For every ascending price history with at
    least two points and every evaluation date, the dashboard takes as
    reference the close of the last point dated on or before the
    previous-quarter-end boundary and,
    for a holding whose three closes are non-zero, reports the quarterly
    return (last.close - reference) / reference * 100, with no row when there
    is no such point; the deep-dive page takes instead the close of the first
    point dated on or after the boundary, and reports the same formula on it
    when it exists and is non-zero, unavailable otherwise; the two references
    are the same point when a point is dated on the boundary itself. *)
Theorem quarter_return_reference
    (today : datetime) (api : string -> option (list PricePoint))
    (row : Dashboard.Holding) (prices : list PricePoint) (boundary : datetime)
    (last_point second_last : PricePoint) (rest : list PricePoint) :
  api (Dashboard.Tickers row) = Some prices ->
  ascending prices = true ->
  rev prices = last_point :: second_last :: rest ->
  Dashboard.previous_quarter_end today = Ok boundary ->
  Dashboard.get_stock_price today api (Dashboard.Tickers row)
  = Ok (Some (close last_point), Some (close second_last),
        option_map close (Spec.reference_point boundary prices))
  /\ Dashboard.performance_tuple today api row
     = Ok match Spec.reference_point boundary prices with
          | Some ref =>
              if truthy (close last_point) && truthy (close second_last)
                 && truthy (close ref)
              then Some (Dashboard.mk_tuple
                           (Dashboard.Tickers row) (Dashboard.Weights row)
                           (close last_point) (close second_last) (close ref)
                           (Fin (Spec.return_pct (close last_point) (close ref)))
                           (Fin (Spec.return_pct (close last_point)
                                                 (close second_last))))
              else None
          | None => None
          end
  /\ StockDeepDive.calculate_returns today (Some prices)
     = Ok (if truthy (close second_last)
           then Some (Fin (Spec.return_pct (close last_point) (close second_last)))
           else None,
           match hd_error (on_or_after boundary prices) with
           | Some ref =>
               if truthy (close ref)
               then Some (Fin (Spec.return_pct (close last_point) (close ref)))
               else None
           | None => None
           end)
  /\ (forall p,
        In p prices -> date p = boundary ->
        Spec.reference_point boundary prices = Some p
        /\ hd_error (on_or_after boundary prices) = Some p).
Proof.
  intros Hapi Hasc Hrev Hb.
  pose proof (get_stock_price_ascending today api _ _ _ _ _ _ Hapi Hasc Hrev Hb) as Hg.
  split; [exact Hg |]. split; [| split].
  - unfold Dashboard.performance_tuple. rewrite Hg. cbn [bind].
    destruct (Spec.reference_point boundary prices) as [ref|]; [| reflexivity].
    cbn [option_map].
    destruct (truthy (close last_point)); [| reflexivity].
    destruct (truthy (close second_last)) eqn:Ey; [| reflexivity].
    destruct (truthy (close ref)) eqn:Eq; [| reflexivity].
    cbn [andb]. now rewrite !pct_change_truthy.
  - apply (calculate_returns_ascending today prices boundary _ _ rest Hrev). exact Hb.
  - intros p Hin Hd. apply references_agree_on_boundary; assumption.
Qed.

Lemma quarter_return_reference_witness :
  Dashboard.performance_tuple ex_today ex_api ex_row
  = Ok (Some (Dashboard.mk_tuple "A" (of_Z 60) (of_Z 121) (of_Z 110) (of_Z 110)
                (Fin (Spec.return_pct (of_Z 121) (of_Z 110)))
                (Fin (Spec.return_pct (of_Z 121) (of_Z 110))))).
Proof.
  exact (proj1 (proj2
    (quarter_return_reference ex_today ex_api ex_row ex_prices ex_boundary
       ex_p3 ex_p2 [ex_p1] eq_refl eq_refl eq_refl eq_refl))).
Defined.

(** C1: the quarter return is measured from the close of the last point dated
    on or before the previous-quarter-end boundary, on both pages.  On the
    specification's example (closes 100, 110, 121; boundary 2024-03-31) that
    rule gives a reference of 110 and a return of 10, and the dashboard
    follows it; the deep-dive page anchors on the first point dated on or
    after the boundary, here 2024-05-15, and reports 0. *)
Theorem deep_dive_reference_differs :
  ascending ex_prices = true
  /\ Dashboard.previous_quarter_end ex_today = Ok ex_boundary
  /\ Spec.quarter_return ex_boundary ex_prices = Some (of_Z 10)
  /\ Dashboard.get_stock_price ex_today ex_api "A"
     = Ok (Some (of_Z 121), Some (of_Z 110), Some (of_Z 110))
  /\ StockDeepDive.get_historical_prices (Some ex_prices) = Ok (Some ex_prices)
  /\ StockDeepDive.calculate_returns ex_today (Some ex_prices)
     = Ok (Some (Fin (of_Z 10)), Some (Fin 0))
  /\ StockDeepDive.calculate_returns ex_today (Some ex_prices)
     <> Ok (option_map Fin (Spec.day_return ex_prices),
            option_map Fin (Spec.quarter_return ex_boundary ex_prices)).
Proof.
  assert (StockDeepDive.calculate_returns ex_today (Some ex_prices)
          = Ok (Some (Fin (of_Z 10)), Some (Fin 0))) as Hc by qc_eval.
  assert (Spec.quarter_return ex_boundary ex_prices = Some (of_Z 10)) as Hq
      by qc_eval.
  repeat split; try assumption; try reflexivity.
  assert (Fin 0 <> Fin (of_Z 10)) as Hne by num_neq.
  rewrite Hc, Hq. cbn [option_map]. congruence.
Qed.

(** ** The dashboard loop *)

Section Loop.

Import Dashboard.

Variable today : datetime.
Variable api : string -> option (list PricePoint).

Lemma performance_data_skip (p1 p2 : list Holding) (h : Holding) :
  performance_tuple today api h = Ok None ->
  performance_data today api (p1 ++ h :: p2) = performance_data today api (p1 ++ p2).
Proof.
  intros Hh. induction p1 as [|a p1 IH]; cbn [app performance_data].
  - rewrite Hh. cbn [bind]. destruct (performance_data today api p2); reflexivity.
  - rewrite IH. reflexivity.
Qed.

Lemma main_skip (p1 p2 : list Holding) (h : Holding) :
  performance_tuple today api h = Ok None ->
  main today api (p1 ++ h :: p2) = main today api (p1 ++ p2).
Proof.
  intros Hh. unfold main. now rewrite performance_data_skip.
Qed.

(** A tuple is appended only for three non-zero closes, and then holds the
    two returns as finite numbers. *)
Lemma performance_tuple_some (h : Holding) (t : PerfTuple) :
  performance_tuple today api h = Ok (Some t) ->
  exists c y q : Qc,
    get_stock_price today api (Tickers h) = Ok (Some c, Some y, Some q)
    /\ c <> 0%Qc /\ y <> 0%Qc /\ q <> 0%Qc
    /\ t = mk_tuple (Tickers h) (Weights h) c y q
                    (Fin (Spec.return_pct c q)) (Fin (Spec.return_pct c y)).
Proof.
  unfold performance_tuple.
  destruct (get_stock_price today api (Tickers h)) as [[[c y] q]|e];
    cbn [bind]; [| discriminate].
  destruct c as [c|], y as [y|], q as [q|]; try discriminate.
  destruct (truthy c) eqn:Ec; [| discriminate].
  destruct (truthy y) eqn:Ey; [| discriminate].
  destruct (truthy q) eqn:Eq; [| discriminate].
  cbn [andb]. intros H. injection H as <-.
  exists c, y, q. rewrite !pct_change_truthy by assumption.
  rewrite truthy_fin in Ec, Ey, Eq. repeat split; assumption.
Qed.

(** What the report is made of. *)
Lemma main_report (portfolio : list Holding) (r : Report) :
  main today api portfolio = Ok r ->
  exists data,
    performance_data today api portfolio = Ok data
    /\ performance_df r = map round_row (map with_contribution data)
    /\ portfolio_returns r = calculate_portfolio_performance (performance_df r).
Proof.
  unfold main.
  destruct (performance_data today api portfolio) as [data|e]; cbn [bind];
    [| discriminate].
  destruct (get_sp500_performance today api) as [[sq sd]|e]; cbn [bind];
    [| discriminate].
  destruct (calculate_portfolio_performance
              (map round_row (map with_contribution data))) as [pq pd] eqn:Ep.
  destruct (sub_opt pq sq) as [dq|e]; cbn [bind]; [| discriminate].
  destruct (sub_opt pd sd) as [dd|e]; cbn [bind]; [| discriminate].
  intros H. injection H as <-. exists data. cbn. rewrite Ep. auto.
Qed.

End Loop.

(** With two points or more and a non-zero previous close the day return of
    the deep-dive page is the specification's formula. *)
Lemma day_return_two_points
    (today : datetime) (prices : list PricePoint) (boundary : datetime)
    (last_point second_last : PricePoint) (rest : list PricePoint) :
  rev prices = last_point :: second_last :: rest ->
  StockDeepDive.qtd_start_date today = Ok boundary ->
  close second_last <> 0%Qc ->
  exists qtd,
    StockDeepDive.calculate_returns today (Some prices)
    = Ok (option_map Fin (Spec.day_return prices), qtd).
Proof.
  intros Hrev Hb Hy.
  rewrite (calculate_returns_ascending today prices boundary _ _ rest Hrev Hb).
  apply truthy_fin in Hy. rewrite Hy.
  unfold Spec.day_return. rewrite Hrev. cbn [option_map]. eexists. reflexivity.
Qed.

(** C2: a price history of a single point.  The specification asks for an
    unavailable day return with the sibling figures still computed; both
    pages read [iloc[-2]] first and raise IndexError, and so does the whole
    dashboard run for any portfolio. *)
Theorem single_point_history_raises (today : datetime) (p : PricePoint) :
  Spec.day_return [p] = None
  /\ StockDeepDive.calculate_returns today (Some [p]) = Raise IndexError
  /\ (forall ticker,
        Dashboard.get_stock_price today (fun _ => Some [p]) ticker
        = Raise IndexError)
  /\ (forall h portfolio,
        Dashboard.main today (fun _ => Some [p]) (h :: portfolio)
        = Raise IndexError).
Proof.
  split; [reflexivity |]. split; [reflexivity |].
  assert (forall ticker,
             Dashboard.get_stock_price today (fun _ => Some [p]) ticker
             = Raise IndexError) as Hg by reflexivity.
  split; [exact Hg |].
  intros h portfolio. unfold Dashboard.main.
  cbn [Dashboard.performance_data]. unfold Dashboard.performance_tuple.
  rewrite Hg. reflexivity.
Qed.

(** When the fetch of a holding returns with one of the three prices
    missing, the holding gives no row; the table, the portfolio sums and the
    whole report are those of the portfolio without it, and the sums over
    the rows that remain are divided by the constant 100. *)
Lemma unavailable_holding_excluded
    (today : datetime) (api : string -> option (list PricePoint))
    (p1 p2 : list Dashboard.Holding) (h : Dashboard.Holding)
    (c y q : option Qc) :
  Dashboard.get_stock_price today api (Dashboard.Tickers h) = Ok (c, y, q) ->
  c = None \/ y = None \/ q = None ->
  Dashboard.performance_tuple today api h = Ok None
  /\ Dashboard.performance_data today api (p1 ++ h :: p2)
     = Dashboard.performance_data today api (p1 ++ p2)
  /\ Dashboard.main today api (p1 ++ h :: p2)
     = Dashboard.main today api (p1 ++ p2)
  /\ forall r,
       Dashboard.main today api (p1 ++ h :: p2) = Ok r ->
       exists data,
         Dashboard.performance_data today api (p1 ++ p2) = Ok data
         /\ Dashboard.performance_df r
            = map Dashboard.round_row (map Dashboard.with_contribution data)
         /\ Dashboard.portfolio_returns r
            = (div (sum (map (fun row => mul (Dashboard.Weight row)
                                             (Dashboard.Quarterly_Return row))
                             (Dashboard.performance_df r)))
                   (Fin (of_Z 100)),
               div (sum (map (fun row => mul (Dashboard.Weight row)
                                             (Dashboard.Day_Gain row))
                             (Dashboard.performance_df r)))
                   (Fin (of_Z 100))).
Proof.
  intros Hg Hnone.
  assert (Dashboard.performance_tuple today api h = Ok None) as Ht.
  { unfold Dashboard.performance_tuple. rewrite Hg. cbn [bind].
    destruct Hnone as [-> | [-> | ->]]; [reflexivity | |].
    - destruct c; reflexivity.
    - destruct c, y; reflexivity. }
  split; [exact Ht |].
  split; [apply performance_data_skip, Ht |].
  split; [apply main_skip, Ht |].
  intros r Hr. rewrite (main_skip today api p1 p2 h Ht) in Hr.
  destruct (main_report today api _ r Hr) as (data & Hd & Hdf & Hp).
  exists data. split; [exact Hd |]. split; [exact Hdf |]. exact Hp.
Qed.

(** C5: a holding whose history has a single record has no previous-day
    price, and one whose history is empty has no price at all; neither is
    excluded from the table: the fetch of its prices raises before the loop
    tests them, and the run ends with IndexError or KeyError and no report,
    whatever the other holdings are. *)
Theorem short_history_holding_aborts_run
    (today : datetime) (api : string -> option (list PricePoint))
    (p1 p2 : list Dashboard.Holding) (h : Dashboard.Holding) :
  (forall a, In a p1 ->
     exists prices, Dashboard.get_stock_price today api (Dashboard.Tickers a)
                    = Ok prices) ->
  (forall pt,
      api (Dashboard.Tickers h) = Some [pt] ->
      Dashboard.main today api (p1 ++ h :: p2) = Raise IndexError)
  /\ (api (Dashboard.Tickers h) = Some [] ->
      Dashboard.main today api (p1 ++ h :: p2) = Raise KeyError).
Proof.
  intros Hp1.
  assert (forall e,
             Dashboard.get_stock_price today api (Dashboard.Tickers h) = Raise e ->
             Dashboard.main today api (p1 ++ h :: p2) = Raise e) as Hraise.
  { intros e Hh. unfold Dashboard.main.
    assert (Dashboard.performance_data today api (p1 ++ h :: p2) = Raise e) as ->;
      [| reflexivity].
    induction p1 as [|a p1 IH]; cbn [app Dashboard.performance_data].
    - unfold Dashboard.performance_tuple. rewrite Hh. reflexivity.
    - destruct (Hp1 a (or_introl eq_refl)) as [[[c y] q] Ha].
      unfold Dashboard.performance_tuple at 1. rewrite Ha. cbn [bind].
      rewrite IH by (intros b Hb; apply Hp1; now right).
      destruct c, y, q; try reflexivity.
      destruct (truthy _ && truthy _ && truthy _); reflexivity. }
  split.
  - intros pt Hapi. apply Hraise. unfold Dashboard.get_stock_price.
    rewrite Hapi. reflexivity.
  - intros Hapi. apply Hraise. unfold Dashboard.get_stock_price.
    rewrite Hapi. reflexivity.
Qed.

(** C9: a close of exactly 0 is falsy: such a holding gives no row, exactly
    as a holding with a missing price, and a zero current or prior-quarter
    close of SPY leaves both benchmark returns unavailable. *)
Theorem zero_price_treated_as_missing
    (today : datetime) (api : string -> option (list PricePoint)) :
  (forall (p1 p2 : list Dashboard.Holding) (h : Dashboard.Holding)
          (c y q : option Qc),
      Dashboard.get_stock_price today api (Dashboard.Tickers h) = Ok (c, y, q) ->
      c = Some 0%Qc \/ y = Some 0%Qc \/ q = Some 0%Qc ->
      Dashboard.performance_tuple today api h = Ok None
      /\ Dashboard.performance_data today api (p1 ++ h :: p2)
         = Dashboard.performance_data today api (p1 ++ p2)
      /\ Dashboard.main today api (p1 ++ h :: p2)
         = Dashboard.main today api (p1 ++ p2))
  /\ (forall c y q : option Qc,
        Dashboard.get_stock_price today api "SPY" = Ok (c, y, q) ->
        c = Some 0%Qc \/ q = Some 0%Qc ->
        Dashboard.get_sp500_performance today api = Ok (None, None)).
Proof.
  split.
  - intros p1 p2 h c y q Hg Hzero.
    assert (Dashboard.performance_tuple today api h = Ok None) as Ht.
    { unfold Dashboard.performance_tuple. rewrite Hg. cbn [bind].
      destruct Hzero as [-> | [-> | ->]].
      - destruct y, q; reflexivity.
      - destruct c as [c|], q; try reflexivity.
        cbn. destruct (negb (is_zero c)); reflexivity.
      - destruct c as [c|], y as [y|]; try reflexivity.
        cbn. destruct (negb (is_zero c)), (negb (is_zero y)); reflexivity. }
    split; [exact Ht |].
    split; [apply performance_data_skip, Ht | apply main_skip, Ht].
  - intros c y q Hg Hzero. unfold Dashboard.get_sp500_performance.
    rewrite Hg. cbn [bind].
    destruct Hzero as [-> | ->].
    + destruct q; reflexivity.
    + destruct c as [c|]; [| reflexivity].
      cbn. destruct (negb (is_zero c)); reflexivity.
Qed.

(** ** The weighted sums *)

Lemma forallb_impl {A} (f g : A -> bool) (l : list A) :
  (forall x, f x = true -> g x = true) ->
  forallb f l = true -> forallb g l = true.
Proof.
  intros Hfg. induction l as [|a l IH]; [reflexivity |].
  cbn [forallb]. rewrite !andb_true_iff. intros [Ha Hl]. auto.
Qed.

Lemma total_products (l : list (Qc * Qc)) :
  Spec.total (map (fun p => (fst p * snd p)%Qc) l) = Spec.weighted_sum l.
Proof.
  induction l as [|[w r] l IH]; [reflexivity |]. simpl. now rewrite IH.
Qed.

Lemma is_finite_value (x : num) : is_finite x = true -> x = Fin (value x).
Proof. destruct x; simpl; congruence. Qed.

Lemma weighted_column (f g : Dashboard.Row -> num) (df : list Dashboard.Row) :
  forallb (fun r => is_finite (f r) && is_finite (g r)) df = true ->
  div (sum (map (fun r => mul (f r) (g r)) df)) (Fin (of_Z 100))
  = Fin (Spec.weighted_return (map (fun r => (value (f r), value (g r))) df)).
Proof.
  intros H.
  assert (map (fun r => mul (f r) (g r)) df
          = map Fin (map (fun p => (fst p * snd p)%Qc)
                         (map (fun r => (value (f r), value (g r))) df))) as ->.
  { induction df as [|r df IH]; [reflexivity |].
    cbn [forallb] in H. apply andb_true_iff in H. destruct H as [Hr Hdf].
    apply andb_true_iff in Hr. destruct Hr as [Hf Hg].
    cbn [map]. rewrite <- (IH Hdf). f_equal.
    rewrite (is_finite_value _ Hf), (is_finite_value _ Hg) at 1. reflexivity. }
  rewrite sum_fin, total_products, div_hundred. reflexivity.
Qed.

Lemma performance_data_finite
    (today : datetime) (api : string -> option (list PricePoint))
    (portfolio : list Dashboard.Holding) (data : list Dashboard.PerfTuple) :
  Dashboard.performance_data today api portfolio = Ok data ->
  finite_tuples data = true.
Proof.
  revert data. induction portfolio as [|h portfolio IH]; intros data H.
  - injection H as <-. reflexivity.
  - cbn [Dashboard.performance_data] in H.
    destruct (Dashboard.performance_tuple today api h) as [t|e] eqn:Et;
      cbn [bind] in H; [| discriminate].
    destruct (Dashboard.performance_data today api portfolio) as [d|e];
      cbn [bind] in H; [| discriminate].
    injection H as <-. specialize (IH d eq_refl).
    destruct t as [t|]; [| exact IH].
    destruct (performance_tuple_some today api h t Et)
      as (c & y & q & _ & _ & _ & _ & ->).
    cbn. exact IH.
Qed.

Lemma finite_table_of_tuples (data : list Dashboard.PerfTuple) :
  finite_tuples data = true ->
  finite_table (map Dashboard.with_contribution data) = true
  /\ finite_table (map Dashboard.round_row (map Dashboard.with_contribution data))
     = true.
Proof.
  induction data as [|t data IH]; [split; reflexivity |].
  cbn [finite_tuples forallb]. intros H. apply andb_true_iff in H.
  destruct H as [Ht Hd]. destruct (IH Hd) as [IH1 IH2].
  apply andb_true_iff in Ht. destruct Ht as [Ht Hg].
  apply andb_true_iff in Ht. destruct Ht as [Hw Hq].
  cbn [map finite_table forallb]. fold (finite_table (map Dashboard.with_contribution data)).
  fold (finite_table (map Dashboard.round_row (map Dashboard.with_contribution data))).
  rewrite IH1, IH2. cbn.
  destruct (Dashboard.t_weight t), (Dashboard.t_quarterly_return t),
    (Dashboard.t_day_gain t); try discriminate. split; reflexivity.
Qed.

Lemma calculate_portfolio_performance_finite (df : list Dashboard.Row) :
  finite_table df = true ->
  Dashboard.calculate_portfolio_performance df
  = (Fin (Spec.weighted_return
            (map (fun r => (value (Dashboard.Weight r),
                            value (Dashboard.Quarterly_Return r))) df)),
     Fin (Spec.weighted_return
            (map (fun r => (value (Dashboard.Weight r),
                            value (Dashboard.Day_Gain r))) df))).
Proof.
  intros H. unfold Dashboard.calculate_portfolio_performance.
  f_equal; apply weighted_column; revert H; apply forallb_impl; intros r;
    rewrite !andb_true_iff; tauto.
Qed.

(** C4 (amended): the portfolio quarter and day returns of a table are the
    sums of weight * return over its rows, divided by 100: 60 at 10 and 40
    at -5 give 4.  The table the page passes is the table of the loop after
    its rounding to two decimals, so the reported returns are those sums
    over the rounded weight and the rounded return of each included
    holding. *)
Theorem portfolio_return_weighted_sum :
  (forall df : list Dashboard.Row,
      finite_table df = true ->
      Dashboard.calculate_portfolio_performance df
      = (Fin (Spec.weighted_return
                (map (fun r => (value (Dashboard.Weight r),
                                value (Dashboard.Quarterly_Return r))) df)),
         Fin (Spec.weighted_return
                (map (fun r => (value (Dashboard.Weight r),
                                value (Dashboard.Day_Gain r))) df))))
  /\ (forall today api portfolio r,
        Dashboard.main today api portfolio = Ok r ->
        exists data,
          Dashboard.performance_data today api portfolio = Ok data
          /\ Dashboard.performance_df r
             = map Dashboard.round_row (map Dashboard.with_contribution data)
          /\ finite_table (Dashboard.performance_df r) = true
          /\ Dashboard.portfolio_returns r
             = Dashboard.calculate_portfolio_performance (Dashboard.performance_df r)
          /\ Dashboard.portfolio_returns r
             = (Fin (Spec.weighted_return
                       (map (fun t =>
                               (value (round2 (Dashboard.t_weight t)),
                                value (round2 (Dashboard.t_quarterly_return t))))
                            data)),
                Fin (Spec.weighted_return
                       (map (fun t =>
                               (value (round2 (Dashboard.t_weight t)),
                                value (round2 (Dashboard.t_day_gain t))))
                            data))))
  /\ Spec.weighted_return [(of_Z 60, of_Z 10); (of_Z 40, of_Z (-5))] = of_Z 4
  /\ fst (Dashboard.calculate_portfolio_performance ex_table) = Fin (of_Z 4).
Proof.
  split; [| split; [| split]].
  - exact calculate_portfolio_performance_finite.
  - intros today api portfolio r Hr.
    destruct (main_report today api portfolio r Hr) as (data & Hd & Hdf & Hp).
    pose proof (proj2 (finite_table_of_tuples data
                         (performance_data_finite today api portfolio data Hd)))
      as Hf.
    exists data. split; [exact Hd |]. split; [exact Hdf |].
    split; [rewrite Hdf; exact Hf |]. split; [exact Hp |].
    rewrite Hp, Hdf, (calculate_portfolio_performance_finite _ Hf), !map_map.
    reflexivity.
  - qc_eval.
  - qc_eval.
Qed.

Lemma portfolio_return_weighted_sum_witness :
  Dashboard.calculate_portfolio_performance ex_table
  = (Fin (Spec.weighted_return
            (map (fun r => (value (Dashboard.Weight r),
                            value (Dashboard.Quarterly_Return r))) ex_table)),
     Fin (Spec.weighted_return
            (map (fun r => (value (Dashboard.Weight r),
                            value (Dashboard.Day_Gain r))) ex_table)))
  /\ exists data,
       Dashboard.performance_data ex_today ex_api_pqr
         [ex_row_p; ex_row_s; ex_row_q; ex_row_r] = Ok data
       /\ Dashboard.portfolio_returns ex_report_pqr
          = (Fin (Spec.weighted_return
                    (map (fun t =>
                            (value (round2 (Dashboard.t_weight t)),
                             value (round2 (Dashboard.t_quarterly_return t))))
                         data)),
             Fin (Spec.weighted_return
                    (map (fun t =>
                            (value (round2 (Dashboard.t_weight t)),
                             value (round2 (Dashboard.t_day_gain t))))
                         data))).
Proof.
  split.
  - exact (proj1 portfolio_return_weighted_sum ex_table eq_refl).
  - destruct (proj1 (proj2 portfolio_return_weighted_sum)
                ex_today ex_api_pqr [ex_row_p; ex_row_s; ex_row_q; ex_row_r]
                ex_report_pqr)
      as (data & Hd & _ & _ & _ & Hp).
    + qc_eval.
    + exists data. split; [exact Hd | exact Hp].
Defined.

(** One holding of 100 percent whose closes are 300, 300 and 301: the loop
    computes a quarterly return of 1/3, the weighted sum of the per-holding
    figures over 100 is 1/3, and the page reports 0.33. *)
Lemma reported_return_from_rounded_figures :
  Dashboard.performance_data ex_today ex_api_t [ex_row_t] = Ok [ex_tuple_t]
  /\ Dashboard.main ex_today ex_api_t [ex_row_t] = Ok ex_report_t
  /\ fst (Dashboard.portfolio_returns ex_report_t) = Fin (Q2Qc (33 # 100))
  /\ Spec.weighted_return
       [(value (Dashboard.t_weight ex_tuple_t),
         value (Dashboard.t_quarterly_return ex_tuple_t))]
     = Q2Qc (1 # 3)
  /\ fst (Dashboard.portfolio_returns ex_report_t)
     <> Fin (Spec.weighted_return
               [(value (Dashboard.t_weight ex_tuple_t),
                 value (Dashboard.t_quarterly_return ex_tuple_t))]).
Proof.
  split; [qc_eval |]. split; [qc_eval |]. split; [qc_eval |].
  split; [qc_eval |]. num_neq.
Qed.

(** C6 (amended): each holding's performance contribution is computed as
    weight * quarterly return / 100 from the figures of the loop, before
    the table is rounded; the page then shows every column rounded to two
    decimals, the contribution included, and reports as portfolio quarter
    return the sum of rounded weight * rounded return over 100, computed
    from the rounded table and not from the contributions. *)
Theorem contribution_from_unrounded_figures
    (today : datetime) (api : string -> option (list PricePoint))
    (portfolio : list Dashboard.Holding) (r : Dashboard.Report) :
  Dashboard.main today api portfolio = Ok r ->
  exists data,
    Dashboard.performance_data today api portfolio = Ok data
    /\ (forall row,
          In row (map Dashboard.with_contribution data) ->
          Dashboard.Performance_Contribution row
          = div (mul (Dashboard.Weight row) (Dashboard.Quarterly_Return row))
                (Fin (of_Z 100)))
    /\ Dashboard.performance_df r
       = map Dashboard.round_row (map Dashboard.with_contribution data)
    /\ map Dashboard.Performance_Contribution (Dashboard.performance_df r)
       = map (fun t =>
                round2 (div (mul (Dashboard.t_weight t)
                                 (Dashboard.t_quarterly_return t))
                            (Fin (of_Z 100))))
             data
    /\ fst (Dashboard.portfolio_returns r)
       = div (sum (map (fun t =>
                          mul (round2 (Dashboard.t_weight t))
                              (round2 (Dashboard.t_quarterly_return t)))
                       data))
             (Fin (of_Z 100)).
Proof.
  intros Hr.
  destruct (main_report today api portfolio r Hr) as (data & Hd & Hdf & Hp).
  exists data. split; [exact Hd |]. split; [| split; [exact Hdf |]].
  - intros row Hin. apply in_map_iff in Hin. destruct Hin as (t & <- & _).
    reflexivity.
  - split.
    + rewrite Hdf, !map_map. reflexivity.
    + rewrite Hp, Hdf. unfold Dashboard.calculate_portfolio_performance.
      cbn [fst]. rewrite !map_map. reflexivity.
Qed.

Lemma contribution_from_unrounded_figures_witness :
  exists data,
    Dashboard.performance_data ex_today ex_api_pqr
      [ex_row_p; ex_row_q; ex_row_r] = Ok data
    /\ map Dashboard.Performance_Contribution
           (Dashboard.performance_df ex_report_pqr)
       = map (fun t =>
                round2 (div (mul (Dashboard.t_weight t)
                                 (Dashboard.t_quarterly_return t))
                            (Fin (of_Z 100))))
             data
    /\ fst (Dashboard.portfolio_returns ex_report_pqr)
       = div (sum (map (fun t =>
                          mul (round2 (Dashboard.t_weight t))
                              (round2 (Dashboard.t_quarterly_return t)))
                       data))
             (Fin (of_Z 100)).
Proof.
  destruct (contribution_from_unrounded_figures ex_today ex_api_pqr
              [ex_row_p; ex_row_q; ex_row_r] ex_report_pqr)
    as (data & Hd & _ & _ & Hc & Hp).
  - qc_eval.
  - exists data. split; [exact Hd |]. split; [exact Hc | exact Hp].
Defined.

(** Three holdings of 30, 30 and 40 percent, each with a quarterly return of
    0.01: their contributions 0.003, 0.003 and 0.004 are all shown as 0.00,
    next to weights and returns whose product over 100 is not 0, and they
    add up to 0 while the reported portfolio quarter return is 0.01. *)
Lemma displayed_contributions_do_not_reconcile :
  Dashboard.main ex_today ex_api_pqr [ex_row_p; ex_row_q; ex_row_r]
  = Ok ex_report_pqr
  /\ map Dashboard.Performance_Contribution
         (Dashboard.performance_df ex_report_pqr)
     = [Fin 0%Qc; Fin 0%Qc; Fin 0%Qc]
  /\ map (fun row => div (mul (Dashboard.Weight row)
                              (Dashboard.Quarterly_Return row))
                         (Fin (of_Z 100)))
         (Dashboard.performance_df ex_report_pqr)
     = [Fin (Q2Qc (3 # 1000)); Fin (Q2Qc (3 # 1000)); Fin (Q2Qc (4 # 1000))]
  /\ sum (map Dashboard.Performance_Contribution
              (Dashboard.performance_df ex_report_pqr))
     = Fin 0%Qc
  /\ fst (Dashboard.portfolio_returns ex_report_pqr) = Fin (Q2Qc (1 # 100))
  /\ sum (map Dashboard.Performance_Contribution
              (Dashboard.performance_df ex_report_pqr))
     <> fst (Dashboard.portfolio_returns ex_report_pqr).
Proof.
  split; [qc_eval |]. split; [qc_eval |]. split; [qc_eval |].
  split; [qc_eval |]. split; [qc_eval |]. num_neq.
Qed.

Lemma unavailable_holding_excluded_witness :
  Dashboard.main ex_today ex_api_missing ([ex_row] ++ ex_row_b :: [])
  = Dashboard.main ex_today ex_api_missing ([ex_row] ++ []).
Proof.
  exact (proj1 (proj2 (proj2
    (unavailable_holding_excluded ex_today ex_api_missing [ex_row] [] ex_row_b
       None None None eq_refl (or_introl eq_refl))))).
Defined.

(** With holding B (40 percent) unavailable, holding A (60 percent, quarterly
    return 10) alone is in the table and the portfolio return is 6, not 10. *)
Lemma excluded_holding_not_renormalized :
  (r <- Dashboard.main ex_today ex_api_missing [ex_row; ex_row_b] ;;
   Ok (map Dashboard.Ticker (Dashboard.performance_df r),
       fst (Dashboard.portfolio_returns r)))
  = Ok (["A"%string], Fin (of_Z 6)).
Proof. qc_eval. Qed.

Lemma short_history_holding_aborts_run_witness :
  Dashboard.main ex_today ex_api_short ([ex_row] ++ ex_row_b :: [ex_row])
  = Raise IndexError
  /\ Dashboard.main ex_today ex_api_empty ([ex_row] ++ ex_row_b :: [ex_row])
     = Raise KeyError.
Proof.
  split.
  - apply (proj1 (short_history_holding_aborts_run ex_today ex_api_short
                    [ex_row] [ex_row] ex_row_b
                    (fun a Ha => match Ha with
                                 | or_introl Heq =>
                                     match Heq with
                                     | eq_refl => ex_intro _ _ eq_refl
                                     end
                                 | or_intror Hf => match Hf with end
                                 end))
             ex_p3).
    reflexivity.
  - apply (proj2 (short_history_holding_aborts_run ex_today ex_api_empty
                    [ex_row] [ex_row] ex_row_b
                    (fun a Ha => match Ha with
                                 | or_introl Heq =>
                                     match Heq with
                                     | eq_refl => ex_intro _ _ eq_refl
                                     end
                                 | or_intror Hf => match Hf with end
                                 end))).
    reflexivity.
Defined.

(** Without holding B the same run reports holding A alone, and so does the
    run in which the API has no [historical] entry for B. *)
Lemma run_without_short_history_holding :
  Dashboard.main ex_today ex_api_short [ex_row] = Ok ex_report_a
  /\ Dashboard.main ex_today ex_api_empty [ex_row] = Ok ex_report_a
  /\ Dashboard.main ex_today ex_api_missing [ex_row; ex_row_b] = Ok ex_report_a.
Proof. split; [qc_eval |]. split; qc_eval. Qed.

Lemma zero_price_treated_as_missing_witness :
  Dashboard.performance_tuple ex_today ex_api_zero ex_row = Ok None
  /\ Dashboard.get_sp500_performance ex_today ex_api_zero = Ok (None, None).
Proof.
  split.
  - exact (proj1
      (proj1 (zero_price_treated_as_missing ex_today ex_api_zero)
         [] [] ex_row (Some (of_Z 101)) (Some (of_Z 100)) (Some 0%Qc)
         eq_refl (or_intror (or_intror eq_refl)))).
  - exact (proj2 (zero_price_treated_as_missing ex_today ex_api_zero)
             (Some (of_Z 101)) (Some (of_Z 100)) (Some 0%Qc)
             eq_refl (or_intror eq_refl)).
Defined.

(** ** The remaining helpers of the two pages *)

Lemma load_portfolio_example :
  Dashboard.load_portfolio_from_file
    [Dashboard.mk_holding "AAPL_US" (Q2Qc (6 # 10));
     Dashboard.mk_holding "MSFT" (Q2Qc (4 # 10))]
  = [Dashboard.mk_holding "AAPL" (of_Z 60); Dashboard.mk_holding "MSFT" (of_Z 40)].
Proof. qc_eval. Qed.

Lemma ttm_revenue_example :
  StockDeepDive.column_sum
    (iloc_last4 [of_Z 10; of_Z 20; of_Z 30; of_Z 40; of_Z 50])
  = Fin (of_Z 140).
Proof. qc_eval. Qed.

(** ** Fundamental metrics *)

Lemma iloc_last4_short {A} (l : list A) :
  (List.length l <= 4)%nat -> iloc_last4 l = l.
Proof.
  intros H. unfold iloc_last4.
  replace (List.length l - 4)%nat with 0%nat by lia. reflexivity.
Qed.

Lemma yoy_growth_spec (cur : Qc) (col prefix : list Qc) :
  col = prefix ++ [cur] ->
  StockDeepDive.yoy_growth cur col = Ok (option_map Fin (Spec.yoy_growth col)).
Proof.
  intros ->. unfold StockDeepDive.yoy_growth, Spec.yoy_growth, iloc_neg.
  rewrite <- (length_rev (prefix ++ [cur])), rev_app_distr. cbn [rev app].
  destruct (rev prefix) as [|x1 [|x2 [|x3 [|base r]]]]; try reflexivity.
  assert ((4 <? Z.of_nat (List.length (cur :: x1 :: x2 :: x3 :: base :: r)))%Z = true)
    as -> by (apply Z.ltb_lt; cbn [List.length]; lia).
  cbn [Nat.sub nth_error bind truthy].
  destruct (is_zero base) eqn:E; cbn [negb option_map]; [reflexivity |].
  unfold sub. cbn [neg]. rewrite div_fin by (apply is_zero_false, E).
  cbn [add]. reflexivity.
Qed.

Lemma yoy_growth_five (prefix : list Qc) (base x1 x2 x3 current : Qc) :
  base <> 0%Qc ->
  Spec.yoy_growth (prefix ++ [base; x1; x2; x3; current])
  = Some (current / base - 1)%Qc.
Proof.
  intros H. unfold Spec.yoy_growth. rewrite rev_app_distr. cbn [rev app].
  apply is_zero_false in H. rewrite H. reflexivity.
Qed.

Lemma yoy_growth_short (col : list Qc) :
  (List.length col < 5)%nat -> Spec.yoy_growth col = None.
Proof.
  intros H. unfold Spec.yoy_growth. rewrite <- length_rev in H.
  destruct (rev col) as [|c [|x1 [|x2 [|x3 [|base r]]]]]; try reflexivity.
  cbn [List.length] in H. lia.
Qed.

(** The metrics table for non-empty statements, oldest quarter first. *)
Lemma calculate_financial_metrics_unfold
    (earlier : list StockDeepDive.IncomeRow) (latest : StockDeepDive.IncomeRow)
    (earlier_cf : list StockDeepDive.CashflowRow) (latest_cf : StockDeepDive.CashflowRow) :
  let income := earlier ++ [latest] in
  let cashflow := earlier_cf ++ [latest_cf] in
  exists m,
    StockDeepDive.calculate_financial_metrics (Some (rev income)) (Some (rev cashflow))
    = Ok (Some m)
    /\ StockDeepDive.Current_Quarter m
       = StockDeepDive.mk_column
           (Some (Fin (StockDeepDive.revenue latest)))
           (Some (Fin (StockDeepDive.grossProfit latest)))
           (Some (Fin (StockDeepDive.netIncome latest)))
           (StockDeepDive.ratio_if (StockDeepDive.revenue latest)
              (StockDeepDive.grossProfit latest) (StockDeepDive.revenue latest))
           (StockDeepDive.ratio_if (StockDeepDive.revenue latest)
              (StockDeepDive.netIncome latest) (StockDeepDive.revenue latest))
           (Some (Fin (StockDeepDive.freeCashFlow latest_cf)))
           (StockDeepDive.ratio_if (StockDeepDive.weightedAverageShsOut latest)
              (StockDeepDive.freeCashFlow latest_cf)
              (StockDeepDive.weightedAverageShsOut latest))
           (Some (Fin (StockDeepDive.eps latest)))
           (option_map Fin (Spec.yoy_growth (map StockDeepDive.revenue income)))
           (option_map Fin (Spec.yoy_growth (map StockDeepDive.eps income)))
           (option_map Fin (Spec.yoy_growth (map StockDeepDive.freeCashFlow cashflow)))
    /\ StockDeepDive.TTM m
       = let ttm col := StockDeepDive.column_sum (iloc_last4 col) in
         let ttm_revenue := ttm (map StockDeepDive.revenue income) in
         StockDeepDive.mk_column
           (Some ttm_revenue)
           (Some (ttm (map StockDeepDive.grossProfit income)))
           (Some (ttm (map StockDeepDive.netIncome income)))
           (StockDeepDive.ratio_if ttm_revenue
              (ttm (map StockDeepDive.grossProfit income)) ttm_revenue)
           (StockDeepDive.ratio_if ttm_revenue
              (ttm (map StockDeepDive.netIncome income)) ttm_revenue)
           (Some (ttm (map StockDeepDive.freeCashFlow cashflow)))
           (StockDeepDive.ratio_if (StockDeepDive.weightedAverageShsOut latest)
              (ttm (map StockDeepDive.freeCashFlow cashflow))
              (StockDeepDive.column_mean
                 (iloc_last4 (map StockDeepDive.weightedAverageShsOut income))))
           (Some (ttm (map StockDeepDive.eps income)))
           None None None.
Proof.
  intros income cashflow. unfold StockDeepDive.calculate_financial_metrics, flip.
  rewrite !rev_involutive, !iloc_neg_1.
  unfold income at 1, cashflow at 1. rewrite !rev_app_distr. cbn [rev app bind].
  rewrite (yoy_growth_spec (StockDeepDive.revenue latest) _
             (map StockDeepDive.revenue earlier))
    by (unfold income; rewrite map_app; reflexivity).
  rewrite (yoy_growth_spec (StockDeepDive.eps latest) _
             (map StockDeepDive.eps earlier))
    by (unfold income; rewrite map_app; reflexivity).
  rewrite (yoy_growth_spec (StockDeepDive.freeCashFlow latest_cf) _
             (map StockDeepDive.freeCashFlow earlier_cf))
    by (unfold cashflow; rewrite map_app; reflexivity).
  cbn [bind]. eexists. split; [reflexivity |]. split; reflexivity.
Qed.

(** C7: with at least five periods and a non-zero base, the YoY growth of
    revenue, EPS and free cash flow is the latest value over the value four
    quarters earlier ([iloc[-5]]), minus one; with fewer than five periods it
    is unavailable ([None]), not zero, and with no period at all there is no
    metrics table. *)
Theorem yoy_growth_against_fifth_last :
  (forall (prefix : list StockDeepDive.IncomeRow)
          (p0 p1 p2 p3 p4 : StockDeepDive.IncomeRow)
          (earlier_cf : list StockDeepDive.CashflowRow)
          (latest_cf : StockDeepDive.CashflowRow),
      exists m,
        StockDeepDive.calculate_financial_metrics
          (Some (rev (prefix ++ [p0; p1; p2; p3; p4])))
          (Some (rev (earlier_cf ++ [latest_cf])))
        = Ok (Some m)
        /\ (StockDeepDive.revenue p0 <> 0%Qc ->
            StockDeepDive.YoY_Revenue_Growth (StockDeepDive.Current_Quarter m)
            = Some (Fin (StockDeepDive.revenue p4 / StockDeepDive.revenue p0 - 1)%Qc))
        /\ (StockDeepDive.eps p0 <> 0%Qc ->
            StockDeepDive.YoY_EPS_Growth (StockDeepDive.Current_Quarter m)
            = Some (Fin (StockDeepDive.eps p4 / StockDeepDive.eps p0 - 1)%Qc)))
  /\ (forall (earlier : list StockDeepDive.IncomeRow)
             (latest : StockDeepDive.IncomeRow)
             (prefix : list StockDeepDive.CashflowRow)
             (c0 c1 c2 c3 c4 : StockDeepDive.CashflowRow),
        exists m,
          StockDeepDive.calculate_financial_metrics
            (Some (rev (earlier ++ [latest])))
            (Some (rev (prefix ++ [c0; c1; c2; c3; c4])))
          = Ok (Some m)
          /\ (StockDeepDive.freeCashFlow c0 <> 0%Qc ->
              StockDeepDive.YoY_FCF_Growth (StockDeepDive.Current_Quarter m)
              = Some (Fin (StockDeepDive.freeCashFlow c4
                           / StockDeepDive.freeCashFlow c0 - 1)%Qc)))
  /\ (forall (earlier : list StockDeepDive.IncomeRow)
             (latest : StockDeepDive.IncomeRow)
             (earlier_cf : list StockDeepDive.CashflowRow)
             (latest_cf : StockDeepDive.CashflowRow),
        exists m,
          StockDeepDive.calculate_financial_metrics
            (Some (rev (earlier ++ [latest])))
            (Some (rev (earlier_cf ++ [latest_cf])))
          = Ok (Some m)
          /\ ((List.length (earlier ++ [latest]) < 5)%nat ->
              StockDeepDive.YoY_Revenue_Growth (StockDeepDive.Current_Quarter m) = None
              /\ StockDeepDive.YoY_EPS_Growth (StockDeepDive.Current_Quarter m) = None)
          /\ ((List.length (earlier_cf ++ [latest_cf]) < 5)%nat ->
              StockDeepDive.YoY_FCF_Growth (StockDeepDive.Current_Quarter m) = None))
  /\ (forall (status_code : Z) (cashflow : option (list StockDeepDive.CashflowRow)),
        StockDeepDive.calculate_financial_metrics
          (StockDeepDive.get_financial_statements status_code []) cashflow
        = Ok None).
Proof.
  split; [| split; [| split]].
  - intros prefix p0 p1 p2 p3 p4 earlier_cf latest_cf.
    destruct (calculate_financial_metrics_unfold
                (prefix ++ [p0; p1; p2; p3]) p4 earlier_cf latest_cf)
      as (m & Hm & Hcq & _).
    cbv zeta in Hm, Hcq. rewrite <- app_assoc in Hm, Hcq. cbn [app] in Hm, Hcq.
    exists m. split; [exact Hm |]. rewrite Hcq. cbn.
    rewrite !map_app. cbn [map].
    split; intros H; rewrite yoy_growth_five by exact H; reflexivity.
  - intros earlier latest prefix c0 c1 c2 c3 c4.
    destruct (calculate_financial_metrics_unfold
                earlier latest (prefix ++ [c0; c1; c2; c3]) c4)
      as (m & Hm & Hcq & _).
    cbv zeta in Hm, Hcq. rewrite <- app_assoc in Hm, Hcq. cbn [app] in Hm, Hcq.
    exists m. split; [exact Hm |]. rewrite Hcq. cbn.
    rewrite !map_app. cbn [map].
    intros H; rewrite yoy_growth_five by exact H; reflexivity.
  - intros earlier latest earlier_cf latest_cf.
    destruct (calculate_financial_metrics_unfold earlier latest earlier_cf latest_cf)
      as (m & Hm & Hcq & _).
    cbv zeta in Hm, Hcq.
    exists m. split; [exact Hm |]. rewrite Hcq. cbn.
    split; intros H.
    + rewrite !yoy_growth_short by (rewrite length_map; exact H).
      split; reflexivity.
    + rewrite yoy_growth_short by (rewrite length_map; exact H). reflexivity.
  - intros status_code cashflow. unfold StockDeepDive.get_financial_statements.
    rewrite andb_false_r. reflexivity.
Qed.

Lemma yoy_growth_against_fifth_last_witness :
  exists m,
    StockDeepDive.calculate_financial_metrics
      (Some (rev ([] ++ [ex_q0; ex_q1; ex_q2; ex_q3; ex_q4])))
      (Some (rev ([ex_c1] ++ [ex_c2])))
    = Ok (Some m)
    /\ StockDeepDive.YoY_Revenue_Growth (StockDeepDive.Current_Quarter m)
       = Some (Fin (of_Z 40 / of_Z 8 - 1)%Qc).
Proof.
  destruct (proj1 yoy_growth_against_fifth_last
              [] ex_q0 ex_q1 ex_q2 ex_q3 ex_q4 [ex_c1] ex_c2)
    as (m & Hm & Hrev & _).
  exists m. split; [exact Hm |].
  apply Hrev. apply of_Z_nonzero. discriminate.
Defined.



(** ** Division guards *)

(** A ratio whose guard is its own denominator is unavailable or finite. *)
Lemma ratio_if_own_denominator (a b : Qc) :
  StockDeepDive.ratio_if b a b
  = if is_zero b then None else Some (Fin (a / b)%Qc).
Proof.
  unfold StockDeepDive.ratio_if. cbn [truthy].
  destruct (is_zero b) eqn:E; cbn [negb]; [reflexivity |].
  rewrite div_fin by (apply is_zero_false, E). reflexivity.
Qed.

(** C3: two ratios are not guarded by their own denominator.  The benchmark's
    daily return divides by the previous close while the guard tests the
    current and the prior-quarter close: with a previous close of 0 it is
    infinite, not unavailable.  TTM FCF per share divides by the mean share
    count of the last four quarters while the guard tests the latest share
    count: with a latest count of 0 it is unavailable although the mean, 75,
    is not zero. *)
Theorem unguarded_denominators :
  Dashboard.get_stock_price ex_today ex_api_spy "SPY"
  = Ok (Some (of_Z 510), Some 0%Qc, Some (of_Z 500))
  /\ Dashboard.get_sp500_performance ex_today ex_api_spy
     = Ok (Some (Fin (of_Z 2)), Some (Inf false))
  /\ (exists m,
        StockDeepDive.calculate_financial_metrics
          (Some (rev [ex_q1; ex_q2; ex_q3; ex_q4]))
          (Some (rev [ex_c1; ex_c1; ex_c1; ex_c1]))
        = Ok (Some m)
        /\ StockDeepDive.FCF_per_Share (StockDeepDive.TTM m) = None
        /\ StockDeepDive.column_mean
             (iloc_last4 (map StockDeepDive.weightedAverageShsOut
                              [ex_q1; ex_q2; ex_q3; ex_q4]))
           = Fin (of_Z 75)).
Proof.
  split; [qc_eval |]. split; [qc_eval |].
  eexists. split; [reflexivity |]. split; [reflexivity | qc_eval].
Qed.

(** * Further properties of the two pages *)

(** ** Sorting by date *)

Lemma insert_by_date_perm (p : PricePoint) (l : list PricePoint) :
  Permutation (insert_by_date p l) (p :: l).
Proof.
  induction l as [|q l IH]; cbn [insert_by_date]; [reflexivity |].
  destruct (date_leb (date p) (date q)); [reflexivity |].
  rewrite IH. apply perm_swap.
Qed.

Lemma sort_values_perm (l : list PricePoint) : Permutation (sort_values l) l.
Proof.
  induction l as [|p l IH]; cbn [sort_values]; [reflexivity |].
  rewrite insert_by_date_perm. now apply perm_skip.
Qed.

Lemma dates_sorted_tail (d : datetime) (l : list datetime) :
  dates_sorted (d :: l) = true -> dates_sorted l = true.
Proof.
  destruct l as [|e l]; [reflexivity |]. cbn [dates_sorted].
  intros H. apply andb_true_iff in H. apply H.
Qed.

Lemma insert_by_date_sorted (p : PricePoint) (l : list PricePoint) :
  dates_sorted (map date l) = true ->
  dates_sorted (map date (insert_by_date p l)) = true.
Proof.
  induction l as [|q l IH]; intros H; [reflexivity |].
  cbn [insert_by_date]. destruct (date_leb (date p) (date q)) eqn:E.
  - cbn [map dates_sorted] in *. rewrite E. exact H.
  - pose proof (IH (dates_sorted_tail _ _ H)) as IH'.
    apply date_leb_gt, date_lt_le, date_leb_le in E.
    destruct l as [|r l].
    + cbn. now rewrite E.
    + cbn [insert_by_date map dates_sorted] in *.
      apply andb_true_iff in H. destruct H as [Hqr Hl].
      destruct (date_leb (date p) (date r)); cbn [map dates_sorted].
      * now rewrite E.
      * now rewrite Hqr.
Qed.

Lemma sort_values_sorted (l : list PricePoint) :
  dates_sorted (map date (sort_values l)) = true.
Proof.
  induction l as [|p l IH]; [reflexivity |].
  cbn [sort_values]. now apply insert_by_date_sorted.
Qed.

(** In a list sorted by date no date exceeds the last one. *)
Lemma dates_sorted_last (l : list datetime) (d : datetime) (r : list datetime) :
  dates_sorted l = true -> rev l = d :: r ->
  forall e, In e l -> date_le e d.
Proof.
  revert d r. induction l as [|a l IH]; intros d r Hs Hrev e Hin; [destruct Hin |].
  destruct l as [|b l].
  - cbn in Hrev. injection Hrev as <- _. destruct Hin as [<- | []].
    unfold date_le. lia.
  - assert (exists r', rev (b :: l) = d :: r') as [r' Hr'].
    { cbn [rev] in Hrev. cbn [rev].
      destruct (rev l ++ [b]) as [|x xs] eqn:Ex.
      - destruct (rev l); discriminate.
      - cbn in Hrev. injection Hrev as -> _. now exists xs. }
    pose proof (IH d r' (dates_sorted_tail _ _ Hs) Hr') as IH'.
    destruct Hin as [<- | Hin]; [| now apply IH'].
    cbn [dates_sorted] in Hs. apply andb_true_iff in Hs. destruct Hs as [Hab _].
    apply date_leb_le in Hab.
    apply (date_le_trans _ b _ Hab). apply IH'. now left.
Qed.

Lemma insert_by_date_comm (p q : PricePoint) (l : list PricePoint) :
  date p <> date q ->
  insert_by_date p (insert_by_date q l) = insert_by_date q (insert_by_date p l).
Proof.
  intros Hne. induction l as [|e l IH].
  - cbn [insert_by_date].
    destruct (date_leb (date p) (date q)) eqn:Epq,
             (date_leb (date q) (date p)) eqn:Eqp; try reflexivity.
    + apply date_leb_le in Epq, Eqp. destruct Hne. now apply date_le_antisym.
    + apply date_leb_gt in Epq, Eqp. unfold date_lt, date_le in *. lia.
  - cbn [insert_by_date].
    destruct (date_leb (date q) (date e)) eqn:Eqe,
             (date_leb (date p) (date e)) eqn:Epe; cbn [insert_by_date];
      rewrite ?Eqe, ?Epe.
    + destruct (date_leb (date p) (date q)) eqn:Epq,
               (date_leb (date q) (date p)) eqn:Eqp; try reflexivity.
      * apply date_leb_le in Epq, Eqp. destruct Hne. now apply date_le_antisym.
      * apply date_leb_gt in Epq, Eqp. unfold date_lt, date_le in *. lia.
    + assert (date_leb (date p) (date q) = false) as ->; [| reflexivity].
      apply date_leb_gt. apply date_leb_gt in Epe. apply date_leb_le in Eqe.
      unfold date_lt, date_le in *. lia.
    + assert (date_leb (date q) (date p) = false) as ->; [| reflexivity].
      apply date_leb_gt. apply date_leb_gt in Eqe. apply date_leb_le in Epe.
      unfold date_lt, date_le in *. lia.
    + now rewrite IH.
Qed.

Lemma ascending_NoDup (l : list PricePoint) :
  ascending l = true -> NoDup (map date l).
Proof.
  induction l as [|p l IH]; intros H; [constructor |].
  cbn [map]. constructor; [| apply IH, (ascending_tail _ _ H)].
  intros Hin. apply in_map_iff in Hin. destruct Hin as (q & Hd & Hq).
  apply (ascending_head_lt _ _ H q Hq). rewrite Hd. unfold date_le. lia.
Qed.

Lemma sort_values_perm_invariant (l l' : list PricePoint) :
  Permutation l' l -> NoDup (map date l) ->
  sort_values l' = sort_values l.
Proof.
  induction 1 as [| x l1 l2 Hp IH | x y l1 | l1 l2 l3 Hp1 IH1 Hp2 IH2]; intros Hnd.
  - reflexivity.
  - cbn [sort_values]. rewrite IH; [reflexivity |].
    cbn [map] in Hnd. now inversion Hnd.
  - cbn [sort_values]. apply insert_by_date_comm.
    cbn [map] in Hnd. inversion Hnd as [| ? ? Hx _]. intros Heq. apply Hx.
    left. exact Heq.
  - rewrite IH1, IH2; [reflexivity | exact Hnd |].
    apply (Permutation_NoDup (l := map date l3)); [| exact Hnd].
    apply Permutation_map. now symmetry.
Qed.

(** ** Fetching prices *)

Lemma get_stock_price_sorted
    (today : datetime) (api : string -> option (list PricePoint)) (ticker : string)
    (historical : list PricePoint) (boundary : datetime)
    (last_point second_last : PricePoint) (rest : list PricePoint) :
  api ticker = Some historical ->
  rev (sort_values historical) = last_point :: second_last :: rest ->
  Dashboard.previous_quarter_end today = Ok boundary ->
  Dashboard.get_stock_price today api ticker
  = Ok (Some (close last_point), Some (close second_last),
        option_map close (Spec.reference_point boundary (sort_values historical))).
Proof.
  intros Hapi Hrev Hb. unfold Dashboard.get_stock_price. rewrite Hapi.
  assert (empty historical = false) as ->.
  { destruct historical; [discriminate Hrev | reflexivity]. }
  rewrite iloc_neg_1, iloc_neg_2, Hrev. cbn [bind]. rewrite Hb. cbn [bind].
  rewrite last_on_or_before. reflexivity.
Qed.

(** X1: what [get_stock_price] does with a response, whatever the order of
    its records.  Without the [historical] key all three prices are [None];
    an empty history raises KeyError and a single record IndexError; with two
    records or more the current close is that of a record no other record is
    dated after, the previous close is a close of the history, and the
    prior-quarter close is [None] or the close of a record dated on or before
    the boundary. *)
Theorem get_stock_price_outcomes
    (today : datetime) (api : string -> option (list PricePoint))
    (ticker : string) (boundary : datetime) :
  Dashboard.previous_quarter_end today = Ok boundary ->
  match api ticker with
  | None => Dashboard.get_stock_price today api ticker = Ok (None, None, None)
  | Some [] => Dashboard.get_stock_price today api ticker = Raise KeyError
  | Some [_] => Dashboard.get_stock_price today api ticker = Raise IndexError
  | Some historical =>
      exists p y q,
        Dashboard.get_stock_price today api ticker
        = Ok (Some (close p), Some (close y), q)
        /\ In p historical
        /\ (forall r, In r historical -> date_le (date r) (date p))
        /\ In y historical
        /\ (q = None
            \/ exists r, In r historical /\ date_le (date r) boundary
                         /\ q = Some (close r))
  end.
Proof.
  intros Hb. destruct (api ticker) as [historical|] eqn:Hapi.
  2: { unfold Dashboard.get_stock_price. now rewrite Hapi. }
  destruct historical as [|a [|b l]].
  - unfold Dashboard.get_stock_price. now rewrite Hapi.
  - unfold Dashboard.get_stock_price. now rewrite Hapi.
  - set (historical := a :: b :: l) in *.
    pose proof (sort_values_perm historical) as Hperm.
    destruct (rev_two_points (sort_values historical)) as (p & y & rest & Hrev).
    { rewrite (Permutation_length Hperm). cbn. lia. }
    exists p, y, (option_map close
                    (Spec.reference_point boundary (sort_values historical))).
    split; [apply (get_stock_price_sorted _ _ _ _ _ _ _ rest Hapi Hrev Hb) |].
    assert (forall r, In r (sort_values historical) <-> In r historical) as Hin.
    { intros r. split; apply Permutation_in; [exact Hperm | now symmetry]. }
    assert (In p (sort_values historical) /\ In y (sort_values historical))
      as [Hp Hy].
    { split; apply in_rev; rewrite Hrev; cbn; auto. }
    split; [now apply Hin |]. split; [| split; [now apply Hin |]].
    + intros r Hr. apply Hin in Hr.
      apply (dates_sorted_last (map date (sort_values historical)) (date p)
               (map date (y :: rest))).
      * apply sort_values_sorted.
      * rewrite <- map_rev, Hrev. reflexivity.
      * now apply in_map.
    + destruct (Spec.reference_point boundary (sort_values historical))
        as [r|] eqn:Er; [right | now left].
      unfold Spec.reference_point in Er. apply find_some in Er.
      destruct Er as [Hr Hle]. exists r.
      split; [apply Hin, in_rev, Hr |]. split; [now apply date_leb_le | reflexivity].
Qed.

Lemma get_stock_price_outcomes_witness :
  exists p y q,
    Dashboard.get_stock_price ex_today
      (fun _ => Some [ex_p3; ex_p1; ex_p2]) "A"
    = Ok (Some (close p), Some (close y), q)
    /\ In p [ex_p3; ex_p1; ex_p2]
    /\ (forall r, In r [ex_p3; ex_p1; ex_p2] -> date_le (date r) (date p))
    /\ In y [ex_p3; ex_p1; ex_p2]
    /\ (q = None
        \/ exists r, In r [ex_p3; ex_p1; ex_p2] /\ date_le (date r) ex_boundary
                     /\ q = Some (close r)).
Proof.
  exact (get_stock_price_outcomes ex_today (fun _ => Some [ex_p3; ex_p1; ex_p2])
           "A" ex_boundary eq_refl).
Defined.

(** X2: when the dates of a history are all different, the order in which
    the API lists its records does not matter, on either page. *)
Theorem price_fetch_order_independent
    (today : datetime) (api api' : string -> option (list PricePoint))
    (ticker : string) (l l' : list PricePoint) :
  api ticker = Some l -> api' ticker = Some l' ->
  NoDup (map date l) -> Permutation l' l ->
  Dashboard.get_stock_price today api' ticker
  = Dashboard.get_stock_price today api ticker
  /\ StockDeepDive.get_historical_prices (Some l')
     = StockDeepDive.get_historical_prices (Some l).
Proof.
  intros Hapi Hapi' Hnd Hperm.
  assert (empty l' = empty l) as He.
  { destruct l, l'; try reflexivity.
    - apply Permutation_sym, Permutation_nil in Hperm. discriminate.
    - apply Permutation_nil in Hperm. discriminate. }
  unfold Dashboard.get_stock_price, StockDeepDive.get_historical_prices.
  rewrite Hapi, Hapi', He, (sort_values_perm_invariant l l' Hperm Hnd).
  split; reflexivity.
Qed.

Lemma price_fetch_order_independent_witness :
  Dashboard.get_stock_price ex_today (fun _ => Some (rev ex_prices)) "A"
  = Dashboard.get_stock_price ex_today ex_api "A"
  /\ StockDeepDive.get_historical_prices (Some (rev ex_prices))
     = StockDeepDive.get_historical_prices (Some ex_prices).
Proof.
  apply (price_fetch_order_independent ex_today ex_api
           (fun _ => Some (rev ex_prices)) "A" ex_prices (rev ex_prices)).
  - reflexivity.
  - reflexivity.
  - apply ascending_NoDup. reflexivity.
  - apply Permutation_sym, Permutation_rev.
Defined.

(** X3: [get_historical_prices] hands back every record of a non-empty
    history, sorted by date; an empty history raises KeyError and a response
    without the key gives [None]. *)
Theorem get_historical_prices_sorted (data : option (list PricePoint)) :
  match data with
  | None => StockDeepDive.get_historical_prices data = Ok None
  | Some [] => StockDeepDive.get_historical_prices data = Raise KeyError
  | Some historical =>
      exists prices,
        StockDeepDive.get_historical_prices data = Ok (Some prices)
        /\ Permutation prices historical
        /\ dates_sorted (map date prices) = true
  end.
Proof.
  destruct data as [[|p l]|]; try reflexivity.
  exists (sort_values (p :: l)). split; [reflexivity |].
  split; [apply sort_values_perm | apply sort_values_sorted].
Qed.

(** ** The quarter window *)

Local Open Scope Z_scope.

(** X4: the previous-quarter-end boundary is 31 March, 30 June or
    30 September of the year of the evaluation date, or 31 December of the
    year before; it is dated strictly before the evaluation date, by at most
    92 days. *)
Theorem previous_quarter_end_calendar (today : datetime) :
  valid_date today -> MINYEAR < year today \/ 3 < month today ->
  exists boundary,
    Dashboard.previous_quarter_end today = Ok boundary
    /\ (boundary = mk_datetime (year today - 1) 12 31
        \/ boundary = mk_datetime (year today) 3 31
        \/ boundary = mk_datetime (year today) 6 30
        \/ boundary = mk_datetime (year today) 9 30)
    /\ date_lt boundary today
    /\ 0 < toordinal today - toordinal boundary <= 92.
Proof.
  destruct today as [y m d]. unfold valid_date, MINYEAR.
  cbn [year month day]. intros (Hy & Hm & Hd) Hlow.
  unfold Dashboard.previous_quarter_end, Dashboard.current_quarter_start,
    minus_one_day, MINYEAR. cbn [year month day].
  assert (m = 1 \/ m = 2 \/ m = 3 \/ m = 4 \/ m = 5 \/ m = 6 \/ m = 7 \/ m = 8
          \/ m = 9 \/ m = 10 \/ m = 11 \/ m = 12) as Hc by lia.
  repeat (destruct Hc as [-> | Hc]); try subst m;
    match goal with
    | |- context [(?a - 1) / 3 * 3 + 1] =>
        let v := eval vm_compute in ((a - 1) / 3 * 3 + 1) in
        change ((a - 1) / 3 * 3 + 1) with v
    end;
    cbn [Z.ltb Z.compare Pos.compare Pos.compare_cont];
    try (assert ((1 <? y) = true) as -> by (apply Z.ltb_lt; lia));
    eexists; (split; [reflexivity |]);
    (split; [auto 6 |]);
    (split; [unfold date_lt, date_le; cbn [year month day]; lia |]);
    unfold toordinal, days_before_month; cbn [year month day];
    try rewrite (days_before_year_succ y);
    revert Hd; simpl; unfold days_in_month; simpl;
    try destruct (is_leap y); try destruct (is_leap (y - 1)); lia.
Qed.

Lemma previous_quarter_end_calendar_witness :
  exists boundary,
    Dashboard.previous_quarter_end (mk_datetime 2024 2 29) = Ok boundary
    /\ (boundary = mk_datetime (2024 - 1) 12 31
        \/ boundary = mk_datetime 2024 3 31
        \/ boundary = mk_datetime 2024 6 30
        \/ boundary = mk_datetime 2024 9 30)
    /\ date_lt boundary (mk_datetime 2024 2 29)
    /\ 0 < toordinal (mk_datetime 2024 2 29) - toordinal boundary <= 92.
Proof.
  apply (previous_quarter_end_calendar (mk_datetime 2024 2 29)).
  - repeat split; vm_compute; congruence.
  - left. reflexivity.
Defined.

(** ** The dashboard run *)

Local Open Scope Qc_scope.

(** The three prices of a ticker are all missing, or the current and the
    previous close are both there. *)
Lemma get_stock_price_shape
    (today : datetime) (api : string -> option (list PricePoint))
    (ticker : string) (c y q : option Qc) :
  Dashboard.get_stock_price today api ticker = Ok (c, y, q) ->
  (c = None /\ y = None /\ q = None)
  \/ (exists cv yv, c = Some cv /\ y = Some yv).
Proof.
  unfold Dashboard.get_stock_price.
  destruct (api ticker) as [historical|].
  2: { intros H. injection H as <- <- <-. now left. }
  destruct (empty historical); [discriminate |].
  destruct (iloc_neg (sort_values historical) 1) as [cur|]; cbn [bind];
    [| discriminate].
  destruct (iloc_neg (sort_values historical) 2) as [yes|]; cbn [bind];
    [| discriminate].
  destruct (Dashboard.previous_quarter_end today) as [b|]; cbn [bind];
    [| discriminate].
  rewrite last_on_or_before. cbn [bind].
  intros H. injection H as <- <- <-. right. eauto.
Qed.

(** The two benchmark returns come together, the QTD return a finite
    number, and a raise is the raise of the price fetch. *)
Lemma get_sp500_performance_shape
    (today : datetime) (api : string -> option (list PricePoint)) :
  (forall sq sd,
      Dashboard.get_sp500_performance today api = Ok (sq, sd) ->
      (sq = None /\ sd = None)
      \/ (exists (q : Qc) (d : num), sq = Some (Fin q) /\ sd = Some d))
  /\ (forall e,
        Dashboard.get_sp500_performance today api = Raise e ->
        Dashboard.get_stock_price today api "SPY" = Raise e).
Proof.
  unfold Dashboard.get_sp500_performance.
  destruct (Dashboard.get_stock_price today api "SPY") as [[[c y] q]|e0] eqn:Hg;
    cbn [bind].
  2: { split; [discriminate | intros e H; injection H as ->; reflexivity]. }
  destruct (get_stock_price_shape _ _ _ _ _ _ Hg) as [(-> & -> & ->) | (cv & yv & -> & ->)].
  - split; [| discriminate]. intros sq sd H. injection H as <- <-. now left.
  - destruct q as [qv|].
    2: { split; [| discriminate]. intros sq sd H. injection H as <- <-. now left. }
    destruct (truthy cv) eqn:Ec; cbn [andb].
    2: { split; [| discriminate]. intros sq sd H. injection H as <- <-. now left. }
    destruct (truthy qv) eqn:Eq.
    2: { split; [| discriminate]. intros sq sd H. injection H as <- <-. now left. }
    split; [| discriminate]. intros sq sd H. injection H as <- <-. right.
    rewrite pct_change_truthy by exact Eq. eauto.
Qed.

(** X5: the two benchmark returns are available together or not at all, and
    [get_sp500_performance] raises only what the price fetch of SPY raises,
    with the same exception. *)
Theorem sp500_returns_together
    (today : datetime) (api : string -> option (list PricePoint)) :
  (forall sq sd,
      Dashboard.get_sp500_performance today api = Ok (sq, sd) ->
      (sq = None /\ sd = None)
      \/ (exists q d : num, sq = Some q /\ sd = Some d))
  /\ (forall e,
        Dashboard.get_sp500_performance today api = Raise e ->
        Dashboard.get_stock_price today api "SPY" = Raise e).
Proof.
  destruct (get_sp500_performance_shape today api) as [Hok Hraise].
  split; [| exact Hraise].
  intros sq sd H.
  destruct (Hok sq sd H) as [Hnone | (q & d & -> & ->)]; [now left |].
  right. eauto.
Qed.

Lemma sp500_returns_together_witness :
  ((None : option num) = None /\ (None : option num) = None
   \/ exists q d : num, (None : option num) = Some q /\ (None : option num) = Some d)
  /\ ((Some (Dashboard.pct_change (of_Z 121) (of_Z 110)) = None
       /\ Some (Dashboard.pct_change (of_Z 121) (of_Z 110)) = None)
      \/ (exists q d : num,
             Some (Dashboard.pct_change (of_Z 121) (of_Z 110)) = Some q
             /\ Some (Dashboard.pct_change (of_Z 121) (of_Z 110)) = Some d))
  /\ Dashboard.get_stock_price ex_today (fun _ => Some [ex_p3]) "SPY"
     = Raise IndexError.
Proof.
  split; [| split].
  - apply (proj1 (sp500_returns_together ex_today ex_api_zero)). reflexivity.
  - apply (proj1 (sp500_returns_together ex_today ex_api)). reflexivity.
  - apply (proj2 (sp500_returns_together ex_today (fun _ => Some [ex_p3]))).
    reflexivity.
Defined.

(** X6: the run reaches its summary only with both benchmark returns: a
    report always carries them, the deltas being portfolio minus benchmark,
    and when the benchmark is unavailable while every holding was fetched the
    run raises TypeError. *)
Theorem report_needs_benchmark
    (today : datetime) (api : string -> option (list PricePoint))
    (portfolio : list Dashboard.Holding) :
  (forall r,
      Dashboard.main today api portfolio = Ok r ->
      exists (q : Qc) (d : num),
        Dashboard.spy_returns r = (Some (Fin q), Some d)
        /\ Dashboard.deltas r
           = (sub (fst (Dashboard.portfolio_returns r)) (Fin q),
              sub (snd (Dashboard.portfolio_returns r)) d))
  /\ (forall data,
        Dashboard.performance_data today api portfolio = Ok data ->
        Dashboard.get_sp500_performance today api = Ok (None, None) ->
        Dashboard.main today api portfolio = Raise TypeError).
Proof.
  split.
  - intros r. unfold Dashboard.main.
    destruct (Dashboard.performance_data today api portfolio) as [data|];
      cbn [bind]; [| discriminate].
    destruct (Dashboard.get_sp500_performance today api) as [[sq sd]|] eqn:Hs;
      cbn [bind]; [| discriminate].
    destruct (Dashboard.calculate_portfolio_performance _) as [pq pd].
    destruct (proj1 (get_sp500_performance_shape today api) sq sd Hs)
      as [[-> ->] | (q & d & -> & ->)]; cbn [Dashboard.sub_opt bind];
      [discriminate |].
    intros H. injection H as <-. exists q, d. split; reflexivity.
  - intros data Hd Hs. unfold Dashboard.main. rewrite Hd, Hs. cbn [bind].
    destruct (Dashboard.calculate_portfolio_performance _) as [pq pd].
    reflexivity.
Qed.

Lemma report_needs_benchmark_witness :
  Dashboard.main ex_today ex_api_zero [ex_row] = Raise TypeError.
Proof.
  exact (proj2 (report_needs_benchmark ex_today ex_api_zero [ex_row])
           [] eq_refl eq_refl).
Defined.

(** X7: the holdings are fetched in portfolio order and the first fetch that
    raises ends the run with its exception, whatever the later holdings
    are. *)
Theorem first_failing_fetch_aborts
    (today : datetime) (api : string -> option (list PricePoint))
    (p1 p2 : list Dashboard.Holding) (h : Dashboard.Holding) (e : exn) :
  (forall a, In a p1 ->
     exists prices, Dashboard.get_stock_price today api (Dashboard.Tickers a)
                    = Ok prices) ->
  Dashboard.get_stock_price today api (Dashboard.Tickers h) = Raise e ->
  Dashboard.performance_data today api (p1 ++ h :: p2) = Raise e
  /\ Dashboard.main today api (p1 ++ h :: p2) = Raise e.
Proof.
  intros Hp1 Hh.
  assert (Dashboard.performance_data today api (p1 ++ h :: p2) = Raise e) as Hd.
  { induction p1 as [|a p1 IH]; cbn [app Dashboard.performance_data].
    - unfold Dashboard.performance_tuple. rewrite Hh. reflexivity.
    - destruct (Hp1 a (or_introl eq_refl)) as [[[c y] q] Ha].
      unfold Dashboard.performance_tuple at 1. rewrite Ha. cbn [bind].
      rewrite IH by (intros b Hb; apply Hp1; now right).
      destruct c, y, q; try reflexivity.
      destruct (truthy _ && truthy _ && truthy _); reflexivity. }
  split; [exact Hd |]. unfold Dashboard.main. rewrite Hd. reflexivity.
Qed.

Lemma first_failing_fetch_aborts_witness :
  Dashboard.main ex_today
    (fun ticker => if String.eqb ticker "B" then Some [ex_p3] else Some ex_prices)
    ([ex_row] ++ ex_row_b :: [ex_row])
  = Raise IndexError.
Proof.
  apply (first_failing_fetch_aborts ex_today
           (fun ticker => if String.eqb ticker "B" then Some [ex_p3] else Some ex_prices)
           [ex_row] [ex_row] ex_row_b IndexError).
  - intros a [<- | []]. eexists. reflexivity.
  - reflexivity.
Defined.

Lemma performance_tuple_included
    (today : datetime) (api : string -> option (list PricePoint))
    (h : Dashboard.Holding) (t : option Dashboard.PerfTuple) :
  Dashboard.performance_tuple today api h = Ok t ->
  match t with
  | Some t' =>
      included today api h = true
      /\ Dashboard.t_ticker t' = Dashboard.Tickers h
      /\ Dashboard.t_weight t' = Fin (Dashboard.Weights h)
  | None => included today api h = false
  end.
Proof.
  unfold Dashboard.performance_tuple, included.
  destruct (Dashboard.get_stock_price today api (Dashboard.Tickers h))
    as [[[c y] q]|]; cbn [bind]; [| discriminate].
  destruct c as [c|], y as [y|], q as [q|];
    try (intros H; injection H as <-; reflexivity).
  destruct (truthy c && truthy y && truthy q); intros H; injection H as <-;
    [| reflexivity].
  repeat split.
Qed.

Lemma performance_data_included
    (today : datetime) (api : string -> option (list PricePoint))
    (portfolio : list Dashboard.Holding) (data : list Dashboard.PerfTuple) :
  Dashboard.performance_data today api portfolio = Ok data ->
  map Dashboard.t_ticker data
  = map Dashboard.Tickers (filter (included today api) portfolio)
  /\ map Dashboard.t_weight data
     = map (fun h => Fin (Dashboard.Weights h))
           (filter (included today api) portfolio).
Proof.
  revert data. induction portfolio as [|h portfolio IH]; intros data Hd.
  - injection Hd as <-. split; reflexivity.
  - cbn [Dashboard.performance_data] in Hd. cbn [filter].
    destruct (Dashboard.performance_tuple today api h) as [t|] eqn:Et;
      cbn [bind] in Hd; [| discriminate].
    destruct (Dashboard.performance_data today api portfolio) as [d|];
      cbn [bind] in Hd; [| discriminate].
    injection Hd as <-. destruct (IH d eq_refl) as [IHt IHw].
    pose proof (performance_tuple_included today api h t Et) as Hi.
    destruct t as [t|].
    + destruct Hi as (-> & Htk & Hwt). cbn [map]. now rewrite Htk, Hwt, IHt, IHw.
    + rewrite Hi. split; assumption.
Qed.

(** X8: the performance table has one row for each holding whose three
    closes are there and non-zero, and for no other, in portfolio order,
    under the holding's ticker; it has no more rows than the portfolio has
    holdings. *)
Theorem table_rows_are_included_holdings
    (today : datetime) (api : string -> option (list PricePoint))
    (portfolio : list Dashboard.Holding) (r : Dashboard.Report) :
  Dashboard.main today api portfolio = Ok r ->
  map Dashboard.Ticker (Dashboard.performance_df r)
  = map Dashboard.Tickers (filter (included today api) portfolio)
  /\ List.length (Dashboard.performance_df r)
     = List.length (filter (included today api) portfolio)
  /\ (List.length (Dashboard.performance_df r) <= List.length portfolio)%nat.
Proof.
  intros Hr. destruct (main_report today api portfolio r Hr) as (data & Hd & Hdf & _).
  destruct (performance_data_included today api portfolio data Hd) as [Ht _].
  assert (map Dashboard.Ticker (Dashboard.performance_df r)
          = map Dashboard.Tickers (filter (included today api) portfolio)) as Hk.
  { rewrite Hdf, !map_map.
    cbn [Dashboard.round_row Dashboard.with_contribution Dashboard.Ticker].
    rewrite <- Ht. reflexivity. }
  assert (List.length (Dashboard.performance_df r)
          = List.length (filter (included today api) portfolio)) as Hl.
  { rewrite <- (length_map Dashboard.Ticker), Hk, length_map. reflexivity. }
  split; [exact Hk |]. split; [exact Hl |].
  rewrite Hl. apply filter_length_le.
Qed.

Lemma table_rows_are_included_holdings_witness :
  map Dashboard.Ticker (Dashboard.performance_df ex_report_pqr)
  = map Dashboard.Tickers
        (filter (included ex_today ex_api_pqr)
                [ex_row_p; ex_row_s; ex_row_q; ex_row_r])
  /\ List.length (Dashboard.performance_df ex_report_pqr)
     = List.length (filter (included ex_today ex_api_pqr)
                           [ex_row_p; ex_row_s; ex_row_q; ex_row_r])
  /\ (List.length (Dashboard.performance_df ex_report_pqr)
      <= List.length [ex_row_p; ex_row_s; ex_row_q; ex_row_r])%nat.
Proof.
  apply (table_rows_are_included_holdings ex_today ex_api_pqr
           [ex_row_p; ex_row_s; ex_row_q; ex_row_r] ex_report_pqr).
  qc_eval.
Defined.

(** ** The empty table *)

Local Open Scope Qc_scope.

(** X9: when no holding has its three non-zero closes (an empty portfolio
    included) the table is empty and both portfolio returns are 0, so the
    deltas are minus the benchmark returns. *)
Theorem no_row_zero_return
    (today : datetime) (api : string -> option (list PricePoint))
    (portfolio : list Dashboard.Holding) (r : Dashboard.Report) :
  Dashboard.main today api portfolio = Ok r ->
  (forall h, In h portfolio -> included today api h = false) ->
  Dashboard.performance_df r = []
  /\ Dashboard.portfolio_returns r = (Fin 0, Fin 0).
Proof.
  intros Hr Hnone.
  destruct (main_report today api portfolio r Hr) as (data & Hd & Hdf & Hp).
  destruct (performance_data_included today api portfolio data Hd) as [Ht _].
  assert (filter (included today api) portfolio = []) as Hf.
  { clear -Hnone. induction portfolio as [|h p IH]; [reflexivity |].
    cbn [filter]. rewrite (Hnone h (or_introl eq_refl)).
    apply IH. intros a Ha. apply Hnone. now right. }
  rewrite Hf in Ht. destruct data; [| discriminate].
  rewrite Hp, Hdf. split; [reflexivity |].
  unfold Dashboard.calculate_portfolio_performance. cbn [map sum filter fold_left].
  rewrite div_hundred.
  assert (0 / of_Z 100 = 0) as -> by (field; apply hundred_nonzero).
  reflexivity.
Qed.

Lemma no_row_zero_return_witness :
  Dashboard.performance_df ex_report_empty = []
  /\ Dashboard.portfolio_returns ex_report_empty = (Fin 0, Fin 0).
Proof.
  apply (no_row_zero_return ex_today ex_api_missing [ex_row_b] ex_report_empty).
  - reflexivity.
  - intros h [<- | []]. reflexivity.
Defined.


(** ** Loading the portfolio *)

Local Open Scope Qc_scope.

Lemma before_underscore_clean (s : string) :
  has_underscore (Dashboard.before_underscore s) = false.
Proof.
  induction s as [|c s IH]; [reflexivity |].
  cbn [Dashboard.before_underscore].
  destruct (Ascii.eqb c "_") eqn:E; [reflexivity |].
  cbn [has_underscore]. now rewrite E, IH.
Qed.

Lemma before_underscore_prefix (s : string) :
  exists rest,
    s = (Dashboard.before_underscore s ++ rest)%string
    /\ (rest = EmptyString \/ exists rest', rest = String "_" rest').
Proof.
  induction s as [|c s (rest & Hs & Hrest)].
  - exists EmptyString. split; [reflexivity | now left].
  - cbn [Dashboard.before_underscore]. destruct (Ascii.eqb c "_") eqn:E.
    + apply Ascii.eqb_eq in E. subst c. exists (String "_" s).
      split; [reflexivity | right; now exists s].
    + exists rest. split; [| exact Hrest]. cbn. now rewrite <- Hs.
Qed.

Lemma before_underscore_fixed (s : string) :
  has_underscore s = false -> Dashboard.before_underscore s = s.
Proof.
  induction s as [|c s IH]; [reflexivity |].
  cbn [has_underscore Dashboard.before_underscore]. intros H.
  apply orb_false_iff in H. destruct H as [-> H]. now rewrite IH.
Qed.

(** X13: loading keeps the rows and their order; each ticker is cut before
    its first underscore, so a loaded ticker holds no underscore, is a prefix
    of the ticker in the file, followed there by nothing or by an
    underscore, and is the ticker itself when that has no underscore. *)
Theorem load_portfolio_tickers (file : list Dashboard.Holding) :
  let portfolio := Dashboard.load_portfolio_from_file file in
  List.length portfolio = List.length file
  /\ Forall2 (fun raw h =>
                has_underscore (Dashboard.Tickers h) = false
                /\ (exists rest,
                       Dashboard.Tickers raw = (Dashboard.Tickers h ++ rest)%string
                       /\ (rest = EmptyString
                           \/ exists rest', rest = String "_" rest'))
                /\ (has_underscore (Dashboard.Tickers raw) = false ->
                    Dashboard.Tickers h = Dashboard.Tickers raw))
             file portfolio.
Proof.
  cbv zeta. split; [apply length_map |].
  induction file as [|raw file IH]; [constructor |].
  cbn [Dashboard.load_portfolio_from_file map].
  constructor; [| exact IH]. cbn [Dashboard.Tickers].
  split; [apply before_underscore_clean |].
  split; [apply before_underscore_prefix | apply before_underscore_fixed].
Qed.

(** ** The password gate *)

(** X14: the file of the folder is chosen exactly when the password equals
    the stored one, never when none is stored; otherwise the uploaded file is
    chosen if there is one and no file if not; and the message about a
    missing default file is never given. *)
Theorem folder_file_only_for_stored_password
    (UploadedFile : Type) (password : string) (stored_password : option string)
    (uploaded_file : option UploadedFile) :
  let result :=
    Gate.authenticate_and_load_portfolio password stored_password uploaded_file in
  (fst result = Some (Gate.FromFolder "portfolio_weights_current.csv")
   <-> stored_password = Some password)
  /\ (stored_password <> Some password ->
      fst result = option_map Gate.Uploaded uploaded_file)
  /\ (fst result = None
      <-> stored_password <> Some password /\ uploaded_file = None)
  /\ snd result <> "Default portfolio file not found. Please upload a file."%string.
Proof.
  cbv zeta. unfold Gate.authenticate_and_load_portfolio, Gate.password_matches.
  destruct stored_password as [s|].
  - destruct (String.eqb password s) eqn:E.
    + apply String.eqb_eq in E. subst s. cbn [fst snd].
      repeat split; try congruence; try discriminate.
      intros [H _]. congruence.
    + apply String.eqb_neq in E.
      assert (Some s <> Some password) as Hne by congruence.
      destruct uploaded_file as [f|]; cbn [fst snd option_map];
        repeat split; try congruence; try discriminate; try tauto.
      intros [_ H]. discriminate.
  - destruct uploaded_file as [f|]; cbn [fst snd option_map];
      repeat split; try congruence; try discriminate; try tauto.
    intros [_ H]. discriminate.
Qed.

(** ** Returns of the deep-dive page *)

(** X15: [calculate_returns] gives two unavailable figures for a missing or
    empty frame and raises IndexError for a frame of a single row; for a
    longer frame it raises only the OverflowError of the date subtraction,
    and otherwise the day return is unavailable exactly when the previous
    close is 0, and the QTD return exactly when no row is dated on or after
    the quarter start or the first such row closes at 0. *)
Theorem calculate_returns_availability
    (today : datetime) (prices : option (list PricePoint)) :
  match prices with
  | None | Some [] =>
      StockDeepDive.calculate_returns today prices = Ok (None, None)
  | Some [_] => StockDeepDive.calculate_returns today prices = Raise IndexError
  | Some frame =>
      match StockDeepDive.qtd_start_date today with
      | Ok start =>
          exists day_return qtd_return,
            StockDeepDive.calculate_returns today prices
            = Ok (day_return, qtd_return)
            /\ (day_return = None
                <-> option_map close (nth_error (rev frame) 1) = Some 0)
            /\ (qtd_return = None
                <-> match hd_error (on_or_after start frame) with
                    | Some ref => close ref = 0
                    | None => True
                    end)
      | Raise e =>
          e = OverflowError
          /\ StockDeepDive.calculate_returns today prices = Raise OverflowError
      end
  end.
Proof.
  destruct prices as [[|a [|b l]]|]; try reflexivity.
  destruct (rev_two_points (a :: b :: l)) as (p & y & rest & Hrev);
    [cbn; lia |].
  destruct (StockDeepDive.qtd_start_date today) as [start|e] eqn:Hs.
  - rewrite (calculate_returns_ascending today _ start p y rest Hrev Hs).
    eexists _, _. split; [reflexivity |]. rewrite Hrev. cbn [nth_error option_map].
    split.
    + destruct (truthy (close y)) eqn:E.
      * apply truthy_fin in E. split; [discriminate |].
        intros H. injection H as H. contradiction.
      * split; [| reflexivity]. intros _. f_equal.
        destruct (is_zero (close y)) eqn:Z.
        -- now apply is_zero_true.
        -- apply is_zero_false, truthy_fin in Z. congruence.
    + destruct (hd_error (on_or_after start (a :: b :: l))) as [ref|];
        [| tauto].
      destruct (truthy (close ref)) eqn:E.
      * apply truthy_fin in E. split; [discriminate | contradiction].
      * split; [| reflexivity]. intros _.
        destruct (is_zero (close ref)) eqn:Z.
        -- now apply is_zero_true.
        -- apply is_zero_false, truthy_fin in Z. congruence.
  - assert (e = OverflowError) as ->.
    { unfold StockDeepDive.qtd_start_date, minus_one_day in Hs.
      cbn [year month day] in Hs.
      destruct (1 <? 1)%Z; [discriminate |].
      destruct (1 <? _)%Z; [discriminate |].
      destruct (MINYEAR <? _)%Z; [discriminate |]. now injection Hs as <-. }
    split; [reflexivity |].
    unfold StockDeepDive.calculate_returns. cbn [empty negb].
    rewrite iloc_neg_1, iloc_neg_2, Hrev. cbn [bind]. rewrite Hs. reflexivity.
Qed.

(** ** The chart *)

Local Open Scope Qc_scope.

Lemma rebase_prices_finite (p0 : Qc) (l : list Qc) :
  p0 <> 0 ->
  StockDeepDive.rebase_prices (map Fin (p0 :: l))
  = Ok (map (fun p => Fin ((p / p0 - 1) * of_Z 100)) (p0 :: l)).
Proof.
  intros H0. unfold StockDeepDive.rebase_prices. cbn [map iloc0 bind].
  f_equal. rewrite div_fin by exact H0. f_equal.
  rewrite map_map. apply map_ext. intros p. now rewrite div_fin.
Qed.

(** X16: rebasing a series of prices whose first price is a non-zero number
    gives a curve of as many points that starts at 0; an empty series raises
    IndexError. *)
Theorem rebase_prices_anchored (first : Qc) (later : list Qc) :
  first <> 0 ->
  (exists curve,
      StockDeepDive.rebase_prices (map Fin (first :: later))
      = Ok (Fin 0 :: curve)
      /\ List.length curve = List.length later)
  /\ StockDeepDive.rebase_prices [] = Raise IndexError.
Proof.
  intros H0. split; [| reflexivity].
  rewrite rebase_prices_finite by exact H0. cbn [map].
  eexists. split; [| apply length_map].
  f_equal. f_equal. f_equal. field. exact H0.
Qed.

Lemma rebase_prices_anchored_witness :
  exists curve,
    StockDeepDive.rebase_prices (map Fin (of_Z 100 :: [of_Z 110; of_Z 121]))
    = Ok (Fin 0 :: curve)
    /\ List.length curve = List.length [of_Z 110; of_Z 121].
Proof.
  apply (proj1 (rebase_prices_anchored (of_Z 100) [of_Z 110; of_Z 121]
                  (of_Z_nonzero 100 ltac:(discriminate)))).
Defined.

Lemma filter_nothing {A} (f : A -> bool) (l : list A) :
  (forall x, In x l -> f x = false) -> filter f l = [].
Proof.
  induction l as [|a l IH]; intros H; [reflexivity |].
  cbn [filter]. rewrite (H a (or_introl eq_refl)).
  apply IH. intros x Hx. apply H. now right.
Qed.

Lemma rebase_prices_nonempty (p : PricePoint) (l : list PricePoint) :
  exists curve,
    StockDeepDive.rebase_prices (DeepDivePage.closes (p :: l)) = Ok curve.
Proof. eexists. reflexivity. Qed.

(** X18: with cumulative returns switched on, a stock whose window is empty
    is left out of the chart, but a benchmark history that lies wholly
    before the window makes the chart raise IndexError; without rebasing the
    same inputs give a chart. *)
Theorem rebased_benchmark_window_unguarded
    (today : datetime) (view : StockDeepDive.chart_view)
    (stock spy : list PricePoint) (start : datetime) :
  StockDeepDive.start_date view today = Ok start ->
  spy <> [] ->
  (forall p, In p spy -> date_lt (date p) start) ->
  DeepDivePage.chart today view stock true (Some spy) true = Raise IndexError
  /\ DeepDivePage.chart today view stock true (Some spy) false
     = Ok [DeepDivePage.mk_trace DeepDivePage.Stock false
             (DeepDivePage.dates (on_or_after start stock))
             (DeepDivePage.closes (on_or_after start stock));
           DeepDivePage.mk_trace DeepDivePage.Benchmark false [] []]
  /\ ((forall p, In p stock -> date_lt (date p) start) ->
      DeepDivePage.chart today view stock false None true = Ok []).
Proof.
  intros Hstart Hne Hold.
  assert (on_or_after start (sort_values spy) = []) as Hspy.
  { apply filter_nothing. intros p Hp. apply date_leb_gt, Hold.
    apply (Permutation_in p (sort_values_perm spy) Hp). }
  assert (StockDeepDive.get_historical_prices (Some spy)
          = Ok (Some (sort_values spy))) as Hget.
  { unfold StockDeepDive.get_historical_prices.
    destruct spy; [congruence | reflexivity]. }
  unfold DeepDivePage.chart. rewrite Hstart. cbn [bind].
  rewrite Hget. cbn [bind option_map]. rewrite Hspy.
  split; [| split].
  - destruct (on_or_after start stock) as [|p w]; cbn [empty negb bind];
      [reflexivity |].
    destruct (rebase_prices_nonempty p w) as [curve ->]. reflexivity.
  - reflexivity.
  - intros Hstock.
    assert (on_or_after start stock = []) as ->; [| reflexivity].
    apply filter_nothing. intros p Hp. apply date_leb_gt, Hstock, Hp.
Qed.

Lemma rebased_benchmark_window_unguarded_witness :
  DeepDivePage.chart ex_today StockDeepDive.QTD ex_prices true
    (Some [ex_p1; ex_p2]) true
  = Raise IndexError.
Proof.
  apply (rebased_benchmark_window_unguarded ex_today StockDeepDive.QTD
           ex_prices [ex_p1; ex_p2] ex_boundary).
  - reflexivity.
  - discriminate.
  - intros p [<- | [<- | []]]; apply date_leb_gt; reflexivity.
Defined.

Local Open Scope Z_scope.

Lemma qtd_boundary_explicit (today : datetime) :
  1 <= month today <= 12 -> MINYEAR < year today ->
  StockDeepDive.start_date StockDeepDive.QTD today
  = Ok (if month today <=? 3 then mk_datetime (year today - 1) 12 31
        else if month today <=? 6 then mk_datetime (year today) 3 31
        else if month today <=? 9 then mk_datetime (year today) 6 30
        else mk_datetime (year today) 9 30).
Proof.
  destruct today as [y m d]. unfold MINYEAR. cbn [year month day].
  intros Hm Hy. unfold StockDeepDive.start_date, minus_one_day, MINYEAR.
  cbn [year month day].
  assert ((1 <? y) = true) as Hy' by (apply Z.ltb_lt; lia).
  assert (m = 1 \/ m = 2 \/ m = 3 \/ m = 4 \/ m = 5 \/ m = 6 \/ m = 7 \/ m = 8
          \/ m = 9 \/ m = 10 \/ m = 11 \/ m = 12) as Hc by lia.
  repeat (destruct Hc as [-> | Hc]); try subst m;
    match goal with
    | |- context [(?a - 1) / 3 * 3 + 1] =>
        let v := eval vm_compute in ((a - 1) / 3 * 3 + 1) in
        change ((a - 1) / 3 * 3 + 1) with v
    end;
    cbn [Z.ltb Z.leb Z.compare Pos.compare Pos.compare_cont];
    rewrite ?Hy'; reflexivity.
Qed.

Lemma filter_filter_implied {A} (f g : A -> bool) (l : list A) :
  (forall x, f x = true -> g x = true) ->
  filter f (filter g l) = filter f l.
Proof.
  intros H. induction l as [|a l IH]; [reflexivity |].
  cbn [filter]. destruct (g a) eqn:Eg; cbn [filter].
  - now rewrite IH.
  - destruct (f a) eqn:Ef; [| exact IH]. rewrite (H a Ef) in Eg. discriminate.
Qed.

(** X19: the YTD chart starts on 31 December of the year before and never
    after the QTD chart, so every point of the QTD chart is a point of the
    YTD chart; from January to March the two charts are the same. *)
Theorem qtd_window_within_ytd_window (today : datetime) :
  1 <= month today <= 12 -> MINYEAR < year today ->
  exists ytd qtd,
    StockDeepDive.start_date StockDeepDive.YTD today = Ok ytd
    /\ StockDeepDive.start_date StockDeepDive.QTD today = Ok qtd
    /\ ytd = mk_datetime (year today - 1) 12 31
    /\ date_le ytd qtd
    /\ (forall prices,
          on_or_after qtd (on_or_after ytd prices) = on_or_after qtd prices)
    /\ (month today <= 3 -> qtd = ytd).
Proof.
  intros Hm Hy. rewrite (qtd_boundary_explicit today Hm Hy).
  exists (mk_datetime (year today - 1) 12 31). eexists.
  split.
  { unfold StockDeepDive.start_date, minus_one_day. cbn [year month day].
    cbn [Z.ltb Z.compare]. apply Z.ltb_lt in Hy. now rewrite Hy. }
  split; [reflexivity |]. split; [reflexivity |].
  assert (date_le (mk_datetime (year today - 1) 12 31)
            (if month today <=? 3 then mk_datetime (year today - 1) 12 31
             else if month today <=? 6 then mk_datetime (year today) 3 31
             else if month today <=? 9 then mk_datetime (year today) 6 30
             else mk_datetime (year today) 9 30)) as Hle.
  { destruct (month today <=? 3); [| destruct (month today <=? 6);
      [| destruct (month today <=? 9)]];
      unfold date_le; cbn [year month day]; lia. }
  split; [exact Hle |]. split.
  - intros prices. apply filter_filter_implied. intros p Hp.
    apply date_leb_le. apply date_leb_le in Hp.
    exact (date_le_trans _ _ _ Hle Hp).
  - intros H3. apply Z.leb_le in H3. now rewrite H3.
Qed.

Lemma qtd_window_within_ytd_window_witness :
  exists ytd qtd,
    StockDeepDive.start_date StockDeepDive.YTD ex_today = Ok ytd
    /\ StockDeepDive.start_date StockDeepDive.QTD ex_today = Ok qtd
    /\ ytd = mk_datetime (year ex_today - 1) 12 31
    /\ date_le ytd qtd
    /\ (forall prices,
          on_or_after qtd (on_or_after ytd prices) = on_or_after qtd prices)
    /\ (month ex_today <= 3 -> qtd = ytd).
Proof.
  apply (qtd_window_within_ytd_window ex_today).
  - split; vm_compute; congruence.
  - reflexivity.
Defined.

(** ** The next earnings date *)

Lemma insert_date_perm (d : datetime) (l : list datetime) :
  Permutation (DeepDivePage.insert_date d l) (d :: l).
Proof.
  induction l as [|e l IH]; cbn [DeepDivePage.insert_date]; [reflexivity |].
  destruct (date_leb d e); [reflexivity |]. rewrite IH. apply perm_swap.
Qed.

Lemma sort_dates_perm (l : list datetime) :
  Permutation (DeepDivePage.sort_dates l) l.
Proof.
  induction l as [|d l IH]; cbn [DeepDivePage.sort_dates]; [reflexivity |].
  rewrite insert_date_perm. now apply perm_skip.
Qed.

Lemma sort_dates_head_least (l : list datetime) (d : datetime) (r : list datetime) :
  DeepDivePage.sort_dates l = d :: r -> forall e, In e l -> date_le d e.
Proof.
  revert d r. induction l as [|a l IH]; intros d r Hs e He; [destruct He |].
  cbn [DeepDivePage.sort_dates] in Hs.
  destruct (DeepDivePage.sort_dates l) as [|m s] eqn:Es.
  - assert (l = []) as -> by
        (apply Permutation_nil; rewrite <- Es; apply sort_dates_perm).
    cbn in Hs. injection Hs as <- _. destruct He as [<- | []].
    unfold date_le. lia.
  - pose proof (IH m s eq_refl) as Hm.
    cbn [DeepDivePage.insert_date] in Hs.
    destruct (date_leb a m) eqn:Eam.
    + injection Hs as <- _. apply date_leb_le in Eam.
      destruct He as [<- | He]; [unfold date_le; lia |].
      exact (date_le_trans _ _ _ Eam (Hm e He)).
    + injection Hs as <- _. apply date_leb_gt, date_lt_le in Eam.
      destruct He as [<- | He]; [exact Eam | exact (Hm e He)].
Qed.

(** X20: the next earnings date is the earliest date of the calendar that is
    after today; there is none exactly when the response is not a 200 or no
    date of it is after today; the function never raises. *)
Theorem next_earnings_date_earliest_future
    (today : datetime) (status_code : Z) (data : list datetime) :
  match DeepDivePage.get_earnings_date today status_code data with
  | Ok (Some d) =>
      status_code = 200%Z /\ In d data /\ date_lt today d
      /\ forall e, In e data -> date_lt today e -> date_le d e
  | Ok None => status_code <> 200%Z \/ forall e, In e data -> date_le e today
  | Raise _ => False
  end.
Proof.
  unfold DeepDivePage.get_earnings_date.
  destruct (status_code =? 200)%Z eqn:Es; cbn [andb].
  2: { left. now apply Z.eqb_neq. }
  apply Z.eqb_eq in Es.
  destruct (empty data) eqn:Ee; cbn [negb].
  { right. destruct data; [intros e [] | discriminate]. }
  set (future := filter (fun d => negb (date_leb d today)) data).
  assert (forall e, In e future <-> In e data /\ date_lt today e) as Hf.
  { intros e. unfold future. rewrite filter_In, negb_true_iff, date_leb_gt.
    reflexivity. }
  destruct future as [|f fs] eqn:Ef; cbn [empty negb].
  - right. intros e He.
    destruct (date_leb e today) eqn:El; [now apply date_leb_le |].
    apply date_leb_gt in El. destruct (proj2 (Hf e) (conj He El)).
  - destruct (DeepDivePage.sort_dates (f :: fs)) as [|d r] eqn:Hs.
    + pose proof (sort_dates_perm (f :: fs)) as Hp. rewrite Hs in Hp.
      apply Permutation_nil in Hp. discriminate.
    + cbn [iloc0 bind].
      assert (In d (f :: fs)) as Hd.
      { apply (Permutation_in d (sort_dates_perm (f :: fs))). rewrite Hs. now left. }
      apply Hf in Hd. destruct Hd as [Hin Hlt].
      split; [exact Es |]. split; [exact Hin |]. split; [exact Hlt |].
      intros e He Hte. apply (sort_dates_head_least (f :: fs) d r Hs).
      apply Hf. split; assumption.
Qed.

(** ** Fundamental metrics, further *)

Local Open Scope Qc_scope.

Lemma statements_oldest_first {A} (latest : A) (older : list A) :
  latest :: older = rev (rev older ++ [latest]).
Proof. now rewrite rev_app_distr, rev_involutive. Qed.

(** X21: fed with what [get_financial_statements] returns, the metrics
    function never raises; it gives no table exactly when one of the two
    responses is not a 200 or is empty. *)
Theorem financial_metrics_never_raise
    (income_status cashflow_status : Z)
    (income_data : list StockDeepDive.IncomeRow)
    (cashflow_data : list StockDeepDive.CashflowRow) :
  exists table,
    StockDeepDive.calculate_financial_metrics
      (StockDeepDive.get_financial_statements income_status income_data)
      (StockDeepDive.get_financial_statements cashflow_status cashflow_data)
    = Ok table
    /\ (table = None
        <-> income_status <> 200%Z \/ income_data = []
            \/ cashflow_status <> 200%Z \/ cashflow_data = []).
Proof.
  unfold StockDeepDive.get_financial_statements.
  destruct (income_status =? 200)%Z eqn:Ei; cbn [andb].
  2: { apply Z.eqb_neq in Ei. exists None. split; [reflexivity | tauto]. }
  destruct income_data as [|latest older]; cbn [empty negb].
  { exists None. split; [reflexivity | tauto]. }
  destruct (cashflow_status =? 200)%Z eqn:Ec; cbn [andb].
  2: { apply Z.eqb_neq in Ec. exists None. split; [reflexivity | tauto]. }
  destruct cashflow_data as [|latest_cf older_cf]; cbn [empty negb].
  { exists None. split; [reflexivity | tauto]. }
  apply Z.eqb_eq in Ei, Ec.
  destruct (calculate_financial_metrics_unfold (rev older) latest
              (rev older_cf) latest_cf) as (m & Hm & _).
  cbv zeta in Hm. rewrite <- !statements_oldest_first in Hm.
  exists (Some m). split; [exact Hm |].
  split; [discriminate |]. intros [H | [H | [H | H]]]; congruence.
Qed.

Lemma iloc_last4_app {A} (prefix : list A) (a b c d : A) :
  iloc_last4 (prefix ++ [a; b; c; d]) = [a; b; c; d].
Proof.
  unfold iloc_last4. rewrite length_app. cbn [List.length].
  replace (List.length prefix + 4 - 4)%nat with (List.length prefix + 0)%nat by lia.
  rewrite skipn_app, Nat.add_0_r, skipn_all.
  replace (List.length prefix - List.length prefix)%nat with 0%nat by lia.
  reflexivity.
Qed.

(** X22: with four periods or more the TTM column is computed from the last
    four periods only: it is the column the same four periods give on their
    own, its revenue and free cash flow being the sums of the four. *)
Theorem ttm_uses_last_four_periods
    (older : list StockDeepDive.IncomeRow) (a b c d : StockDeepDive.IncomeRow)
    (older_cf : list StockDeepDive.CashflowRow)
    (e f g h : StockDeepDive.CashflowRow) :
  exists m m4,
    StockDeepDive.calculate_financial_metrics
      (Some (rev (older ++ [a; b; c; d]))) (Some (rev (older_cf ++ [e; f; g; h])))
    = Ok (Some m)
    /\ StockDeepDive.calculate_financial_metrics
         (Some (rev [a; b; c; d])) (Some (rev [e; f; g; h]))
       = Ok (Some m4)
    /\ StockDeepDive.TTM m = StockDeepDive.TTM m4
    /\ StockDeepDive.Revenue (StockDeepDive.TTM m)
       = Some (Fin (StockDeepDive.revenue a + StockDeepDive.revenue b
                    + StockDeepDive.revenue c + StockDeepDive.revenue d))
    /\ StockDeepDive.Free_Cash_Flow (StockDeepDive.TTM m)
       = Some (Fin (StockDeepDive.freeCashFlow e + StockDeepDive.freeCashFlow f
                    + StockDeepDive.freeCashFlow g + StockDeepDive.freeCashFlow h)).
Proof.
  destruct (calculate_financial_metrics_unfold (older ++ [a; b; c]) d
              (older_cf ++ [e; f; g]) h) as (m & Hm & _ & Httm).
  destruct (calculate_financial_metrics_unfold [a; b; c] d [e; f; g] h)
    as (m4 & Hm4 & _ & Httm4).
  cbv zeta in Hm, Httm, Hm4, Httm4.
  rewrite <- !app_assoc in Hm, Httm. cbn [app] in Hm, Httm, Hm4, Httm4.
  rewrite !map_app in Httm. cbn [map] in Httm. rewrite !iloc_last4_app in Httm.
  exists m, m4. split; [exact Hm |]. split; [exact Hm4 |].
  split; [rewrite Httm, Httm4; reflexivity |].
  rewrite Httm. cbn [StockDeepDive.Revenue StockDeepDive.Free_Cash_Flow map].
  unfold StockDeepDive.column_sum. rewrite !sum_fin. cbn [Spec.total].
  split; f_equal; f_equal; ring.
Qed.

Lemma column_sum_single (x : Qc) : StockDeepDive.column_sum [x] = Fin x.
Proof.
  unfold StockDeepDive.column_sum. rewrite sum_fin. cbn [Spec.total].
  f_equal. ring.
Qed.

Lemma column_mean_single (x : Qc) : StockDeepDive.column_mean [x] = Fin x.
Proof.
  unfold StockDeepDive.column_mean. rewrite mean_fin by discriminate.
  cbn [Spec.total List.length map]. change (of_Z (Z.of_nat 1)) with 1.
  f_equal. field. intros H. apply (f_equal this) in H. discriminate H.
Qed.

(** X23: with a single reported quarter the TTM column shows the figures of
    the current quarter: revenue, gross profit, net income, both margins,
    free cash flow, FCF per share and EPS are the same in both columns. *)
Theorem single_quarter_ttm_is_current_quarter
    (latest : StockDeepDive.IncomeRow) (latest_cf : StockDeepDive.CashflowRow) :
  exists m,
    StockDeepDive.calculate_financial_metrics (Some [latest]) (Some [latest_cf])
    = Ok (Some m)
    /\ firstn 8 (cells (StockDeepDive.TTM m))
       = firstn 8 (cells (StockDeepDive.Current_Quarter m))
    /\ skipn 8 (cells (StockDeepDive.TTM m)) = [None; None; None]
    /\ skipn 8 (cells (StockDeepDive.Current_Quarter m)) = [None; None; None].
Proof.
  destruct (calculate_financial_metrics_unfold [] latest [] latest_cf)
    as (m & Hm & Hcq & Httm).
  cbv zeta in Hm, Hcq, Httm. cbn [app rev map] in Hm, Hcq, Httm.
  exists m. split; [exact Hm |]. rewrite Hcq, Httm.
  rewrite !iloc_last4_short by (cbn; lia).
  rewrite !column_sum_single, column_mean_single.
  split; [reflexivity |]. split; reflexivity.
Qed.

Lemma total_nonneg (l : list Qc) :
  (forall x, In x l -> 0 <= x) -> 0 <= Spec.total l.
Proof.
  induction l as [|a l IH]; intros H; cbn [Spec.total]; [apply Qcle_refl |].
  replace 0 with (0 + 0) by ring.
  apply Qcplus_le_compat; [apply H; now left | apply IH; intros x Hx; apply H; now right].
Qed.

Lemma total_ge_member (l : list Qc) (x : Qc) :
  (forall y, In y l -> 0 <= y) -> In x l -> x <= Spec.total l.
Proof.
  induction l as [|a l IH]; intros H Hx; [destruct Hx |].
  cbn [Spec.total]. destruct Hx as [<- | Hx].
  - replace a with (a + 0) at 1 by ring.
    apply Qcplus_le_compat; [apply Qcle_refl |].
    apply total_nonneg. intros y Hy. apply H. now right.
  - replace x with (0 + x) by ring.
    apply Qcplus_le_compat; [apply H; now left |].
    apply IH; [intros y Hy; apply H; now right | exact Hx].
Qed.

Lemma skipn_keeps_last {A} (k : nat) (xs : list A) (x : A) :
  (k <= List.length xs)%nat -> In x (skipn k (xs ++ [x])).
Proof.
  revert k. induction xs as [|a xs IH]; intros k Hk.
  - assert (k = 0)%nat as -> by (cbn in Hk; lia). now left.
  - destruct k as [|k]; [apply in_or_app; right; now left |].
    cbn [app skipn]. apply IH. cbn in Hk. lia.
Qed.

Lemma in_skipn {A} (k : nat) (l : list A) (x : A) : In x (skipn k l) -> In x l.
Proof.
  intros H. rewrite <- (firstn_skipn k l). apply in_or_app. now right.
Qed.

(** The mean share count of the last four quarters is positive when no share
    count is negative and the latest is not zero. *)
Lemma mean_shares_positive (shares : list Qc) (latest : Qc) :
  (forall x, In x (shares ++ [latest]) -> 0 <= x) -> latest <> 0 ->
  exists mean_shares,
    StockDeepDive.column_mean (iloc_last4 (shares ++ [latest])) = Fin mean_shares
    /\ 0 < mean_shares.
Proof.
  intros Hnn Hl. set (l4 := iloc_last4 (shares ++ [latest])).
  assert (In latest l4) as Hin.
  { unfold l4, iloc_last4. apply skipn_keeps_last.
    rewrite length_app. cbn [List.length]. lia. }
  assert (forall y, In y l4 -> 0 <= y) as Hnn4
      by (intros y Hy; apply Hnn; unfold l4, iloc_last4 in Hy; exact (in_skipn _ _ _ Hy)).
  assert (l4 <> []) as Hne by (intros E; rewrite E in Hin; destruct Hin).
  assert (0 < Spec.total l4) as Hpos.
  { apply (Qclt_le_trans _ latest); [| now apply total_ge_member].
    assert (0 <= latest) as H0
        by (apply Hnn, in_or_app; right; now left).
    destruct (Qcle_lt_or_eq 0 latest H0) as [H | H]; [exact H | congruence]. }
  unfold StockDeepDive.column_mean. rewrite (mean_fin l4 Hne).
  eexists. split; [reflexivity |].
  set (n := of_Z (Z.of_nat (List.length l4))).
  assert (n <> 0) as Hn.
  { apply of_Z_nonzero. destruct l4; [congruence | cbn; lia]. }
  assert (0 <= n) as Hn0.
  { unfold n, of_Z.
    change (0 <= Qred (inject_Z (Z.of_nat (List.length l4))))%Q.
    rewrite Qred_correct. unfold Qle. cbn. lia. }
  destruct (Qclt_le_dec 0 (Spec.total l4 / n)) as [H | H]; [exact H |].
  exfalso. apply (Qclt_not_le _ _ Hpos).
  rewrite <- (Qcmult_div_r (Spec.total l4) n Hn).
  replace 0 with (0 * n) by ring. rewrite (Qcmult_comm n).
  now apply Qcmult_le_compat_r.
Qed.

(** X24: when no share count of the income statement is negative, TTM FCF
    per share is unavailable exactly when the latest share count is 0, and
    otherwise it is the TTM free cash flow divided by the mean share count
    of the last four quarters, which is then positive. *)
Theorem ttm_fcf_per_share_positive_mean
    (earlier : list StockDeepDive.IncomeRow) (latest : StockDeepDive.IncomeRow)
    (earlier_cf : list StockDeepDive.CashflowRow)
    (latest_cf : StockDeepDive.CashflowRow) :
  (forall row, In row (earlier ++ [latest]) ->
     0 <= StockDeepDive.weightedAverageShsOut row) ->
  exists m,
    StockDeepDive.calculate_financial_metrics
      (Some (rev (earlier ++ [latest]))) (Some (rev (earlier_cf ++ [latest_cf])))
    = Ok (Some m)
    /\ match StockDeepDive.FCF_per_Share (StockDeepDive.TTM m) with
       | None => StockDeepDive.weightedAverageShsOut latest = 0
       | Some v =>
           StockDeepDive.weightedAverageShsOut latest <> 0
           /\ exists mean_shares,
                StockDeepDive.column_mean
                  (iloc_last4 (map StockDeepDive.weightedAverageShsOut
                                   (earlier ++ [latest])))
                = Fin mean_shares
                /\ 0 < mean_shares
                /\ v = div (StockDeepDive.column_sum
                              (iloc_last4 (map StockDeepDive.freeCashFlow
                                               (earlier_cf ++ [latest_cf]))))
                           (Fin mean_shares)
       end.
Proof.
  intros Hnn.
  destruct (calculate_financial_metrics_unfold earlier latest earlier_cf latest_cf)
    as (m & Hm & _ & Httm).
  cbv zeta in Hm, Httm. exists m. split; [exact Hm |].
  rewrite Httm. cbn [StockDeepDive.FCF_per_Share].
  unfold StockDeepDive.ratio_if. cbn [truthy].
  destruct (is_zero (StockDeepDive.weightedAverageShsOut latest)) eqn:Ez;
    cbn [negb]; [now apply is_zero_true |].
  apply is_zero_false in Ez. split; [exact Ez |].
  rewrite (map_app StockDeepDive.weightedAverageShsOut). cbn [map].
  destruct (mean_shares_positive
              (map StockDeepDive.weightedAverageShsOut earlier)
              (StockDeepDive.weightedAverageShsOut latest))
    as (mean_shares & Hmean & Hpos).
  - intros x Hx. apply in_app_or in Hx. destruct Hx as [Hx | [<- | []]].
    + apply in_map_iff in Hx. destruct Hx as (row & <- & Hrow).
      apply Hnn, in_or_app. now left.
    + apply Hnn, in_or_app. right. now left.
  - exact Ez.
  - exists mean_shares. split; [exact Hmean |]. split; [exact Hpos |].
    rewrite Hmean. reflexivity.
Qed.

Lemma ttm_fcf_per_share_positive_mean_witness :
  exists m,
    StockDeepDive.calculate_financial_metrics
      (Some (rev ([ex_q1; ex_q2] ++ [ex_q3]))) (Some (rev ([ex_c1] ++ [ex_c2])))
    = Ok (Some m)
    /\ StockDeepDive.FCF_per_Share (StockDeepDive.TTM m) <> None.
Proof.
  destruct (ttm_fcf_per_share_positive_mean [ex_q1; ex_q2] ex_q3 [ex_c1] ex_c2)
    as (m & Hm & Hfcf).
  - intros row [<- | [<- | [<- | []]]]; apply Qcle_alt; vm_compute; discriminate.
  - exists m. split; [exact Hm |].
    destruct (StockDeepDive.FCF_per_Share (StockDeepDive.TTM m));
      [discriminate |].
    intros _. revert Hfcf. vm_compute. discriminate.
Defined.

(** ** The two pages side by side *)

(** X25: for an ascending history of a holding the dashboard shows, the
    deep-dive page computes the same day return as the dashboard's day gain
    (before rounding), and the same quarter return whenever a point of the
    history is dated on the boundary itself. *)
Theorem pages_agree_on_day_return
    (today : datetime) (api : string -> option (list PricePoint))
    (row : Dashboard.Holding) (prices : list PricePoint) (boundary : datetime)
    (last_point second_last : PricePoint) (rest : list PricePoint)
    (t : Dashboard.PerfTuple) :
  api (Dashboard.Tickers row) = Some prices ->
  ascending prices = true ->
  rev prices = last_point :: second_last :: rest ->
  Dashboard.previous_quarter_end today = Ok boundary ->
  Dashboard.performance_tuple today api row = Ok (Some t) ->
  exists qtd_return,
    StockDeepDive.calculate_returns today (Some prices)
    = Ok (Some (Dashboard.t_day_gain t), qtd_return)
    /\ ((exists p, In p prices /\ date p = boundary) ->
        qtd_return = Some (Dashboard.t_quarterly_return t)).
Proof.
  intros Hapi Hasc Hrev Hb Ht.
  pose proof (get_stock_price_ascending today api _ _ _ _ _ _ Hapi Hasc Hrev Hb) as Hg.
  destruct (performance_tuple_some today api row t Ht)
    as (c & y & q & Hg' & Hc & Hy & Hq & ->).
  rewrite Hg in Hg'. injection Hg' as <- <- Href.
  rewrite (calculate_returns_ascending today prices boundary _ _ rest Hrev Hb).
  apply truthy_fin in Hy. rewrite Hy. cbn [Dashboard.t_day_gain].
  eexists. split; [reflexivity |].
  intros (p & Hp & Hd).
  destruct (references_agree_on_boundary boundary prices p Hasc Hp Hd)
    as [Hr1 Hr2].
  rewrite Hr1 in Href. cbn [option_map] in Href. injection Href as <-.
  rewrite Hr2. apply truthy_fin in Hq. rewrite Hq. reflexivity.
Qed.

Lemma pages_agree_on_day_return_witness :
  exists qtd_return,
    StockDeepDive.calculate_returns ex_today (Some ex_prices)
    = Ok (Some (Dashboard.t_day_gain
                  (Dashboard.mk_tuple "A" (of_Z 60) (of_Z 121) (of_Z 110) (of_Z 110)
                     (Dashboard.pct_change (of_Z 121) (of_Z 110))
                     (Dashboard.pct_change (of_Z 121) (of_Z 110)))), qtd_return)
    /\ ((exists p, In p ex_prices /\ date p = ex_boundary) ->
        qtd_return
        = Some (Dashboard.t_quarterly_return
                  (Dashboard.mk_tuple "A" (of_Z 60) (of_Z 121) (of_Z 110) (of_Z 110)
                     (Dashboard.pct_change (of_Z 121) (of_Z 110))
                     (Dashboard.pct_change (of_Z 121) (of_Z 110))))).
Proof.
  apply (pages_agree_on_day_return ex_today ex_api ex_row ex_prices ex_boundary
           ex_p3 ex_p2 [ex_p1]); reflexivity.
Defined.
